(** * Learning-switch controllers with queue classification

    A shallow embedding of the three Ryu controller applications
    [controladorTeste2.py], [controladorTeste3.py] and
    [controladorTeste4_5.py].  Each application keeps one dictionary
    [mac_to_port] (switch id -> MAC address -> port) and reacts to two
    OpenFlow events: the switch-features reply and packet-in.

    The handlers are written in a small state/exception monad: the state
    is the application object (its [mac_to_port] dictionary) together with
    the ordered list of OpenFlow messages handed to [datapath.send_msg];
    an exception leaves the state as it was when it was raised, as in
    Python.  Calls to [self.logger.info] touch neither the dictionary nor
    the messages and are left out. *)

From Stdlib Require Import ZArith List Strings.Byte.
From stdpp Require Import gmap strings list fin_maps.
Import ListNotations.

Local Open Scope Z_scope.
Local Open Scope string_scope.
Local Open Scope list_scope.

(** ** Constants of the OpenFlow 1.3 protocol and of the packet library

    These come from [ryu.ofproto.ofproto_v1_3] and
    [ryu.lib.packet.ether_types]; the values are the ones fixed by the
    OpenFlow 1.3 specification and by IEEE 802. *)

Definition OFPP_FLOOD : Z := 0xfffffffb.
Definition OFPP_CONTROLLER : Z := 0xfffffffd.
Definition OFPCML_MAX : Z := 0xffe5.
Definition OFPCML_NO_BUFFER : Z := 0xffff.
Definition OFP_NO_BUFFER : Z := 0xffffffff.
Definition OFPIT_APPLY_ACTIONS : Z := 4.
Definition ETH_TYPE_IP : Z := 0x0800.
Definition ETH_TYPE_LLDP : Z := 0x88cc.

(** ** Decoded packets

    [packet.Packet(data)] decodes a frame into a list of protocol headers;
    [pkt.get_protocol(cls)] returns the first header of class [cls], or
    [None] when there is none.  Only the header fields the controllers
    read are kept. *)

Record ethernet := Ethernet {
  dst : string;
  src : string;
  ethertype : Z
}.

Record ipv4 := Ipv4 {
  ip_src : string;
  ip_dst : string
}.

Inductive protocol :=
| P_ethernet (e : ethernet)
| P_ipv4 (i : ipv4)
| P_payload (rest : list byte).

Fixpoint get_protocol_ethernet (pkt : list protocol) : option ethernet :=
  match pkt with
  | [] => None
  | P_ethernet e :: _ => Some e
  | _ :: pkt' => get_protocol_ethernet pkt'
  end.

Fixpoint get_protocol_ipv4 (pkt : list protocol) : option ipv4 :=
  match pkt with
  | [] => None
  | P_ipv4 i :: _ => Some i
  | _ :: pkt' => get_protocol_ipv4 pkt'
  end.

(** The decoder itself belongs to the packet library; the handlers are
    parametric in it. *)
Class PacketLib := Packet : list byte -> list protocol.

(** ** OpenFlow messages *)

Inductive action :=
| OFPActionOutput (port : Z) (max_len : Z)
| OFPActionSetQueue (queue_id : Z).

(** [parser.OFPActionOutput(port)]: [max_len] defaults to [OFPCML_MAX]. *)
Definition OFPActionOutput1 (port : Z) : action :=
  OFPActionOutput port OFPCML_MAX.

(** [parser.OFPMatch] with keyword arguments: a field is present only
    when the caller passed it. *)
Record OFPMatch := Match {
  match_in_port : option Z;
  match_eth_dst : option string;
  match_eth_type : option Z;
  match_ipv4_src : option string;
  match_ipv4_dst : option string
}.

Definition OFPMatch_empty : OFPMatch :=
  Match None None None None None.

Definition OFPMatch_l2 (in_port : Z) (eth_dst : string) : OFPMatch :=
  Match (Some in_port) (Some eth_dst) None None None.

Definition OFPMatch_ip (eth_type : Z) (ipv4_src ipv4_dst : string) : OFPMatch :=
  Match None None (Some eth_type) (Some ipv4_src) (Some ipv4_dst).

Inductive instruction :=
| OFPInstructionActions (type : Z) (actions : list action).

Record OFPFlowMod := FlowMod {
  fm_datapath : Z;
  fm_buffer_id : Z;
  fm_priority : Z;
  fm_match : OFPMatch;
  fm_instructions : list instruction
}.

Record OFPPacketOut := PacketOut {
  po_datapath : Z;
  po_buffer_id : Z;
  po_in_port : Z;
  po_actions : list action;
  po_data : option (list byte)
}.

Inductive ofp_msg :=
| MsgFlowMod (m : OFPFlowMod)
| MsgPacketOut (m : OFPPacketOut).

(** The packet-in message: the datapath is identified by its id,
    [msg.match['in_port']] is the ingress port. *)
Record OFPPacketIn := PacketIn {
  msg_datapath : Z;
  msg_buffer_id : Z;
  msg_in_port : Z;
  msg_data : list byte
}.

Inductive event :=
| EventOFPSwitchFeatures (datapath : Z)
| EventOFPPacketIn (msg : OFPPacketIn).

(** ** The application object and the handler monad *)

Record app := App {
  mac_to_port : gmap Z (gmap string Z);
  sent : list ofp_msg
}.

(** [__init__]: an empty table, nothing sent yet. *)
Definition init : app := App ∅ [].

Inductive exn :=
| AttributeError (attr : string)
| KeyError (key : Z).

Inductive outcome (A : Type) :=
| Returned (a : A)
| Raised (e : exn).
Arguments Returned {A} a.
Arguments Raised {A} e.

Definition M (A : Type) : Type := app -> outcome A * app.

Definition ret {A} (a : A) : M A := fun st => (Returned a, st).

Definition raise {A} (e : exn) : M A := fun st => (Raised e, st).

Definition bind {A B} (m : M A) (k : A -> M B) : M B :=
  fun st =>
    match m st with
    | (Returned a, st') => k a st'
    | (Raised e, st') => (Raised e, st')
    end.

Notation "x <- m ;; k" := (bind m (fun x => k))
  (at level 100, m at next level, right associativity).
Notation "m ;;; k" := (bind m (fun _ => k))
  (at level 100, right associativity).

(** Reading an attribute of the result of [get_protocol]: on [None] Python
    raises [AttributeError]. *)
Definition attr_of {A} (o : option A) (name : string) : M A :=
  match o with
  | Some a => ret a
  | None => raise (AttributeError name)
  end.

(** [datapath.send_msg(m)] *)
Definition send_msg (m : ofp_msg) : M unit :=
  fun st => (Returned tt, App (mac_to_port st) (sent st ++ [m])).

(** [self.mac_to_port.setdefault(dpid, {})] *)
Definition setdefault (dpid : Z) : M unit :=
  fun st =>
    match mac_to_port st !! dpid with
    | Some _ => (Returned tt, st)
    | None => (Returned tt, App (<[dpid := ∅]> (mac_to_port st)) (sent st))
    end.

(** [self.mac_to_port[dpid]] *)
Definition getitem (dpid : Z) : M (gmap string Z) :=
  fun st =>
    match mac_to_port st !! dpid with
    | Some t => (Returned t, st)
    | None => (Raised (KeyError dpid), st)
    end.

(** [self.mac_to_port[dpid][mac] = port] *)
Definition setitem (dpid : Z) (mac : string) (port : Z) : M unit :=
  fun st =>
    match mac_to_port st !! dpid with
    | Some t =>
        (Returned tt, App (<[dpid := <[mac := port]> t]> (mac_to_port st)) (sent st))
    | None => (Raised (KeyError dpid), st)
    end.

(** Python's [x or y] on an optional integer: [None] and [0] are false. *)
Definition py_or (x : option Z) (y : Z) : Z :=
  match x with
  | Some v => if bool_decide (v = 0) then y else v
  | None => y
  end.

(** ** controladorTeste2.py: two queues chosen by source and destination *)

Module Teste2.
Section Controlador.
Context `{PacketLib}.

Definition add_flow (datapath priority : Z) (mtch : OFPMatch)
    (actions : list action) (buffer_id : option Z) : M unit :=
  let inst := [OFPInstructionActions OFPIT_APPLY_ACTIONS actions] in
  let mod_ := FlowMod datapath (py_or buffer_id OFP_NO_BUFFER) priority mtch inst in
  send_msg (MsgFlowMod mod_).

Definition switch_features_handler (datapath : Z) : M unit :=
  let mtch := OFPMatch_empty in
  let actions := [OFPActionOutput OFPP_CONTROLLER OFPCML_NO_BUFFER] in
  add_flow datapath 0 mtch actions None.

(** Line 95: the flow H1 -> H4. *)
Definition is_h1_h4 (ip : ipv4) : bool :=
  bool_decide (ip_src ip = "10.0.0.1") && bool_decide (ip_dst ip = "10.0.0.4").

(** Line 101: the flow H3 -> H4. *)
Definition is_h3_h4 (ip : ipv4) : bool :=
  bool_decide (ip_src ip = "10.0.0.3") && bool_decide (ip_dst ip = "10.0.0.4").

Definition _packet_in_handler (msg : OFPPacketIn) : M unit :=
  let datapath := msg_datapath msg in
  let in_port := msg_in_port msg in
  let pkt := Packet (msg_data msg) in
  eth <- attr_of (get_protocol_ethernet pkt) "ethertype" ;;
  if bool_decide (ethertype eth = ETH_TYPE_LLDP) then ret tt else
  let dst := dst eth in
  let src := src eth in
  let dpid := datapath in
  setdefault dpid ;;;
  setitem dpid src in_port ;;;
  tbl <- getitem dpid ;;
  let out_port :=
    match tbl !! dst with
    | Some p => p
    | None => OFPP_FLOOD
    end in
  let actions0 := [OFPActionOutput1 out_port] in
  actions <-
    (if negb (bool_decide (out_port = OFPP_FLOOD)) then
       let match0 := OFPMatch_l2 in_port dst in
       ma <-
         (if bool_decide (ethertype eth = ETH_TYPE_IP) then
            let ip := get_protocol_ipv4 pkt in
            if bool_decide (dpid = 1) && bool_decide (out_port = 4) then
              ip <- attr_of ip "src" ;;
              if is_h1_h4 ip then
                ret (OFPMatch_ip ETH_TYPE_IP (ip_src ip) (ip_dst ip),
                     [OFPActionSetQueue 1; OFPActionOutput1 out_port])
              else if is_h3_h4 ip then
                ret (OFPMatch_ip ETH_TYPE_IP (ip_src ip) (ip_dst ip),
                     [OFPActionSetQueue 2; OFPActionOutput1 out_port])
              else ret (match0, actions0)
            else ret (match0, actions0)
          else ret (match0, actions0)) ;;
       add_flow datapath 1 (fst ma) (snd ma) (Some (msg_buffer_id msg)) ;;;
       ret (snd ma)
     else ret actions0) ;;
  let data :=
    if bool_decide (msg_buffer_id msg = OFP_NO_BUFFER)
    then Some (msg_data msg) else None in
  let out := PacketOut datapath (msg_buffer_id msg) in_port actions data in
  send_msg (MsgPacketOut out).

End Controlador.
End Teste2.

(** ** controladorTeste3.py: three hosts, two queues chosen by source *)

Module Teste3.
Section Controlador.
Context `{PacketLib}.

Definition add_flow (datapath priority : Z) (mtch : OFPMatch)
    (actions : list action) (buffer_id : option Z) : M unit :=
  let inst := [OFPInstructionActions OFPIT_APPLY_ACTIONS actions] in
  let mod_ := FlowMod datapath (py_or buffer_id OFP_NO_BUFFER) priority mtch inst in
  send_msg (MsgFlowMod mod_).

Definition switch_features_handler (datapath : Z) : M unit :=
  let mtch := OFPMatch_empty in
  let actions := [OFPActionOutput OFPP_CONTROLLER OFPCML_NO_BUFFER] in
  add_flow datapath 0 mtch actions None.

(** Line 90: the flow from H2 (high priority). *)
Definition is_high (ip : ipv4) : bool :=
  bool_decide (ip_src ip = "10.0.0.2").

(** Line 107: the flows from H1 and H3 (low priority). *)
Definition is_low (ip : ipv4) : bool :=
  bool_decide (ip_src ip = "10.0.0.1") || bool_decide (ip_src ip = "10.0.0.3").

Definition _packet_in_handler (msg : OFPPacketIn) : M unit :=
  let datapath := msg_datapath msg in
  let in_port := msg_in_port msg in
  let pkt := Packet (msg_data msg) in
  eth <- attr_of (get_protocol_ethernet pkt) "ethertype" ;;
  if bool_decide (ethertype eth = ETH_TYPE_LLDP) then ret tt else
  let dst := dst eth in
  let src := src eth in
  let dpid := datapath in
  setdefault dpid ;;;
  setitem dpid src in_port ;;;
  tbl <- getitem dpid ;;
  let out_port := default OFPP_FLOOD (tbl !! dst) in
  let actions0 := [OFPActionOutput1 out_port] in
  actions <-
    (if negb (bool_decide (out_port = OFPP_FLOOD)) then
       let match0 := OFPMatch_l2 in_port dst in
       ma <-
         (if bool_decide (dpid = 1) && bool_decide (out_port = 4)
             && bool_decide (ethertype eth = ETH_TYPE_IP) then
            ip <- attr_of (get_protocol_ipv4 pkt) "src" ;;
            if is_high ip then
              ret (OFPMatch_ip ETH_TYPE_IP (ip_src ip) (ip_dst ip),
                   [OFPActionSetQueue 1; OFPActionOutput1 out_port])
            else if is_low ip then
              ret (OFPMatch_ip ETH_TYPE_IP (ip_src ip) (ip_dst ip),
                   [OFPActionSetQueue 2; OFPActionOutput1 out_port])
            else ret (match0, actions0)
          else ret (match0, actions0)) ;;
       add_flow datapath 1 (fst ma) (snd ma) (Some (msg_buffer_id msg)) ;;;
       ret (snd ma)
     else ret actions0) ;;
  let data :=
    if bool_decide (msg_buffer_id msg = OFP_NO_BUFFER)
    then Some (msg_data msg) else None in
  let out := PacketOut datapath (msg_buffer_id msg) in_port actions data in
  send_msg (MsgPacketOut out).

End Controlador.
End Teste3.

(** ** controladorTeste4_5.py: learning and forwarding only *)

Module Teste4_5.
Section PolicingTestController.
Context `{PacketLib}.

Definition add_flow (datapath priority : Z) (mtch : OFPMatch)
    (actions : list action) (buffer_id : option Z) : M unit :=
  let inst := [OFPInstructionActions OFPIT_APPLY_ACTIONS actions] in
  let mod_ := FlowMod datapath (py_or buffer_id OFP_NO_BUFFER) priority mtch inst in
  send_msg (MsgFlowMod mod_).

Definition switch_features_handler (datapath : Z) : M unit :=
  let mtch := OFPMatch_empty in
  let actions := [OFPActionOutput OFPP_CONTROLLER OFPCML_NO_BUFFER] in
  add_flow datapath 0 mtch actions None.

Definition _packet_in_handler (msg : OFPPacketIn) : M unit :=
  let datapath := msg_datapath msg in
  let in_port := msg_in_port msg in
  let pkt := Packet (msg_data msg) in
  eth <- attr_of (get_protocol_ethernet pkt) "ethertype" ;;
  if bool_decide (ethertype eth = ETH_TYPE_LLDP) then ret tt else
  let dst := dst eth in
  let src := src eth in
  let dpid := datapath in
  setdefault dpid ;;;
  setitem dpid src in_port ;;;
  tbl <- getitem dpid ;;
  let out_port := default OFPP_FLOOD (tbl !! dst) in
  let actions := [OFPActionOutput1 out_port] in
  (if negb (bool_decide (out_port = OFPP_FLOOD)) then
     let mtch := OFPMatch_l2 in_port dst in
     add_flow datapath 1 mtch actions (Some (msg_buffer_id msg))
   else ret tt) ;;;
  let data :=
    if bool_decide (msg_buffer_id msg = OFP_NO_BUFFER)
    then Some (msg_data msg) else None in
  let out := PacketOut datapath (msg_buffer_id msg) in_port actions data in
  send_msg (MsgPacketOut out).

End PolicingTestController.
End Teste4_5.

(** ** The event loop

    The framework, which is not part of the three files, hands each event
    to the handler registered for it.  An exception raised by a handler
    ends that handler only; whatever the handler did to the application
    object before raising stays done, and the loop goes on with the next
    event. *)

Section EventLoop.
Variable switch_features_handler : Z -> M unit.
Variable packet_in_handler : OFPPacketIn -> M unit.

Definition dispatch (ev : event) : M unit :=
  match ev with
  | EventOFPSwitchFeatures datapath => switch_features_handler datapath
  | EventOFPPacketIn msg => packet_in_handler msg
  end.

Definition step (st : app) (ev : event) : app := snd (dispatch ev st).

Definition run (evs : list event) (st : app) : app := fold_left step evs st.

End EventLoop.

(** ** Entries of the learning table *)

(** The port recorded for [mac] on switch [dpid], if any. *)
Definition entry (t : gmap Z (gmap string Z)) (dpid : Z) (mac : string) : option Z :=
  t !! dpid ≫= λ m, m !! mac.

(** The table after [setdefault] and the assignment of lines 68-73. *)
Definition learn (dpid : Z) (mac : string) (port : Z)
    (t : gmap Z (gmap string Z)) : gmap Z (gmap string Z) :=
  <[dpid := <[mac := port]> (default ∅ (t !! dpid))]> t.

(** The output port resolved at lines 75-79 (lines 73 and 75 of the two
    other files): the port recorded for the destination once the source
    has been recorded, the flood port when there is none. *)
Definition out_port_of (st : app) (msg : OFPPacketIn) (e : ethernet) : Z :=
  default OFPP_FLOOD
    (<[src e := msg_in_port msg]> (default ∅ (mac_to_port st !! msg_datapath msg))
       !! dst e).

(** The flow-mod that [add_flow(datapath, 1, match, actions, msg.buffer_id)]
    sends, and the packet-out that ends the handler. *)
Definition flow_mod_of (msg : OFPPacketIn) (mtch : OFPMatch)
    (actions : list action) : ofp_msg :=
  MsgFlowMod
    (FlowMod (msg_datapath msg) (py_or (Some (msg_buffer_id msg)) OFP_NO_BUFFER) 1
       mtch [OFPInstructionActions OFPIT_APPLY_ACTIONS actions]).

Definition packet_out_of (msg : OFPPacketIn) (actions : list action) : ofp_msg :=
  MsgPacketOut
    (PacketOut (msg_datapath msg) (msg_buffer_id msg) (msg_in_port msg) actions
       (if bool_decide (msg_buffer_id msg = OFP_NO_BUFFER)
        then Some (msg_data msg) else None)).

(** The state after the source has been recorded. *)
Definition learned (st : app) (msg : OFPPacketIn) (e : ethernet) : app :=
  App (learn (msg_datapath msg) (src e) (msg_in_port msg) (mac_to_port st)) (sent st).

Definition emit (st : app) (ms : list ofp_msg) : app :=
  App (mac_to_port st) (sent st ++ ms).

(** ** What a packet-in handler may do

    The shapes the result of a packet-in handler can take on a state [st]:
    the pair of the outcome and the state left behind.  Each of the three
    handlers is shown below to fall under one of them on every input. *)

Inductive handled `{PacketLib} (msg : OFPPacketIn) (st : app) :
    outcome unit * app -> Prop :=
| handled_malformed :
    get_protocol_ethernet (Packet (msg_data msg)) = None ->
    handled msg st (Raised (AttributeError "ethertype"), st)
| handled_lldp e :
    get_protocol_ethernet (Packet (msg_data msg)) = Some e ->
    ethertype e = ETH_TYPE_LLDP ->
    handled msg st (Returned tt, st)
| handled_flood e :
    get_protocol_ethernet (Packet (msg_data msg)) = Some e ->
    ethertype e <> ETH_TYPE_LLDP ->
    out_port_of st msg e = OFPP_FLOOD ->
    handled msg st
      (Returned tt,
       emit (learned st msg e) [packet_out_of msg [OFPActionOutput1 OFPP_FLOOD]])
| handled_deliver e mtch actions :
    get_protocol_ethernet (Packet (msg_data msg)) = Some e ->
    ethertype e <> ETH_TYPE_LLDP ->
    out_port_of st msg e <> OFPP_FLOOD ->
    handled msg st
      (Returned tt,
       emit (learned st msg e) [flow_mod_of msg mtch actions; packet_out_of msg actions])
| handled_headerless e :
    get_protocol_ethernet (Packet (msg_data msg)) = Some e ->
    ethertype e <> ETH_TYPE_LLDP ->
    out_port_of st msg e <> OFPP_FLOOD ->
    get_protocol_ipv4 (Packet (msg_data msg)) = None ->
    handled msg st (Raised (AttributeError "src"), learned st msg e).

(** Some packet-in among [evs] came from switch [dpid] through [port] with
    a frame, not LLDP, whose source address is [mac]. *)
Definition observed `{PacketLib} (evs : list event) (dpid : Z) (mac : string)
    (port : Z) : Prop :=
  exists msg e,
    In (EventOFPPacketIn msg) evs /\
    msg_datapath msg = dpid /\
    get_protocol_ethernet (Packet (msg_data msg)) = Some e /\
    ethertype e <> ETH_TYPE_LLDP /\
    src e = mac /\
    msg_in_port msg = port.

(** Every entry of the table is accounted for by an event of [evs]. *)
Definition accounted `{PacketLib} (evs : list event)
    (t : gmap Z (gmap string Z)) : Prop :=
  forall dpid mac port, entry t dpid mac = Some port -> observed evs dpid mac port.

(** No flow-mod of [ms] comes after a packet-out of [ms]. *)
Definition install_before_send (ms : list ofp_msg) : Prop :=
  forall (i j : nat) fm po,
    ms !! i = Some (MsgFlowMod fm) ->
    ms !! j = Some (MsgPacketOut po) ->
    (i < j)%nat.

(** ** Sample frames, messages and tables *)

(** A decoder that reads every frame as the given headers. *)
Definition decode_as (pkt : list protocol) : PacketLib := fun _ => pkt.

Definition mac_h1 : string := "00:00:00:00:00:01".
Definition mac_h2 : string := "00:00:00:00:00:02".
Definition mac_h4 : string := "00:00:00:00:00:04".

Definition frame_h1_h4 : list protocol :=
  [P_ethernet (Ethernet mac_h4 mac_h1 ETH_TYPE_IP); P_ipv4 (Ipv4 "10.0.0.1" "10.0.0.4")].

Definition frame_h2_h4 : list protocol :=
  [P_ethernet (Ethernet mac_h4 mac_h2 ETH_TYPE_IP); P_ipv4 (Ipv4 "10.0.0.2" "10.0.0.4")].

Definition frame_arp_h1 : list protocol :=
  [P_ethernet (Ethernet "ff:ff:ff:ff:ff:ff" mac_h1 0x0806)].

Definition frame_lldp : list protocol :=
  [P_ethernet (Ethernet "01:80:c2:00:00:0e" mac_h1 ETH_TYPE_LLDP)].

(** A frame addressed to its own sender. *)
Definition frame_self : list protocol :=
  [P_ethernet (Ethernet mac_h1 mac_h1 0x0806)].

(** A frame too short for an ethernet header: nothing is decoded. *)
Definition frame_truncated : list protocol :=
  [P_payload ["000"%byte; "001"%byte]].

(** Packet-in from switch 1, port 1, not buffered. *)
Definition msg_s1_p1 : OFPPacketIn := PacketIn 1 OFP_NO_BUFFER 1 [].

(** Packet-in from switch 1, port 3, held in buffer 7. *)
Definition msg_s1_p3 : OFPPacketIn := PacketIn 1 7 3 [].

(** Switch 1 has seen H4 on port 4. *)
Definition app_knows_h4 : app := App {[ 1 := {[ mac_h4 := 4 ]} ]} [].

(** ** Notions for the further properties *)

(** What an event does to the learning table: a packet-in whose frame is
    decoded and is not LLDP records its source, nothing else changes the
    table. *)
Definition table_after `{PacketLib} (ev : event)
    (t : gmap Z (gmap string Z)) : gmap Z (gmap string Z) :=
  match ev with
  | EventOFPSwitchFeatures _ => t
  | EventOFPPacketIn msg =>
      match get_protocol_ethernet (Packet (msg_data msg)) with
      | Some e =>
          if bool_decide (ethertype e = ETH_TYPE_LLDP) then t
          else learn (msg_datapath msg) (src e) (msg_in_port msg) t
      | None => t
      end
  end.

(** What a handler answers to a decoded frame that is not LLDP, once the
    output port is resolved: the outcome and the messages sent. *)
Inductive answer `{PacketLib} (msg : OFPPacketIn) (e : ethernet) (out_port : Z) :
    outcome unit -> list ofp_msg -> Prop :=
| answer_flood :
    out_port = OFPP_FLOOD ->
    answer msg e out_port (Returned tt)
      [packet_out_of msg [OFPActionOutput1 OFPP_FLOOD]]
| answer_plain :
    out_port <> OFPP_FLOOD ->
    answer msg e out_port (Returned tt)
      [flow_mod_of msg (OFPMatch_l2 (msg_in_port msg) (dst e))
         [OFPActionOutput1 out_port];
       packet_out_of msg [OFPActionOutput1 out_port]]
| answer_queue q ip :
    out_port = 4 ->
    msg_datapath msg = 1 ->
    ethertype e = ETH_TYPE_IP ->
    get_protocol_ipv4 (Packet (msg_data msg)) = Some ip ->
    q = 1 \/ q = 2 ->
    answer msg e out_port (Returned tt)
      [flow_mod_of msg (OFPMatch_ip ETH_TYPE_IP (ip_src ip) (ip_dst ip))
         [OFPActionSetQueue q; OFPActionOutput1 4];
       packet_out_of msg [OFPActionSetQueue q; OFPActionOutput1 4]]
| answer_headerless :
    out_port = 4 ->
    msg_datapath msg = 1 ->
    ethertype e = ETH_TYPE_IP ->
    get_protocol_ipv4 (Packet (msg_data msg)) = None ->
    answer msg e out_port (Raised (AttributeError "src")) [].

(** A packet-in handler is regular when it raises at once on a frame with
    no ethernet header, returns at once on LLDP, and otherwise records the
    source and gives an answer that depends on the state only through the
    resolved output port. *)
Definition regular `{PacketLib} (h : OFPPacketIn -> M unit) : Prop :=
  (forall msg st,
     get_protocol_ethernet (Packet (msg_data msg)) = None ->
     h msg st = (Raised (AttributeError "ethertype"), st)) /\
  (forall msg st e,
     get_protocol_ethernet (Packet (msg_data msg)) = Some e ->
     ethertype e = ETH_TYPE_LLDP ->
     h msg st = (Returned tt, st)) /\
  (forall msg st e,
     get_protocol_ethernet (Packet (msg_data msg)) = Some e ->
     ethertype e <> ETH_TYPE_LLDP ->
     exists o ms,
       answer msg e (out_port_of st msg e) o ms /\
       forall st',
         out_port_of st' msg e = out_port_of st msg e ->
         h msg st' = (o, emit (learned st' msg e) ms)).

(** The switch a message is sent to, the switch an event comes from. *)
Definition datapath_of (m : ofp_msg) : Z :=
  match m with
  | MsgFlowMod fm => fm_datapath fm
  | MsgPacketOut po => po_datapath po
  end.

Definition event_datapath (ev : event) : Z :=
  match ev with
  | EventOFPSwitchFeatures datapath => datapath
  | EventOFPPacketIn msg => msg_datapath msg
  end.

(** The actions a message carries. *)
Definition actions_of (m : ofp_msg) : list action :=
  match m with
  | MsgFlowMod fm =>
      flat_map (fun i => match i with OFPInstructionActions _ a => a end)
        (fm_instructions fm)
  | MsgPacketOut po => po_actions po
  end.

Definition is_table_miss (m : ofp_msg) : bool :=
  match m with
  | MsgFlowMod fm => bool_decide (fm_priority fm = 0)
  | MsgPacketOut _ => false
  end.

Definition is_features (ev : event) : bool :=
  match ev with
  | EventOFPSwitchFeatures _ => true
  | EventOFPPacketIn _ => false
  end.

(** More sample data. *)

Definition mac_h3 : string := "00:00:00:00:00:03".

Definition frame_h3_h4 : list protocol :=
  [P_ethernet (Ethernet mac_h4 mac_h3 ETH_TYPE_IP); P_ipv4 (Ipv4 "10.0.0.3" "10.0.0.4")].

Definition frame_h4_h1 : list protocol :=
  [P_ethernet (Ethernet mac_h1 mac_h4 0x0806)].

(** An IPv4 ether-type with no IPv4 header behind it. *)
Definition frame_ip_headerless : list protocol :=
  [P_ethernet (Ethernet mac_h4 mac_h1 ETH_TYPE_IP)].

(** A decoder telling two frames apart: the empty one is the ARP request
    of H1, any other one is the answer of H4. *)
Definition decode_two : PacketLib :=
  fun data => match data with [] => frame_arp_h1 | _ :: _ => frame_h4_h1 end.

(** Packet-in from switch 1, port 4, held in buffer 9, with a frame that
    is not empty. *)
Definition msg_s1_p4 : OFPPacketIn := PacketIn 1 9 4 ["001"%byte].

(** Packet-in from switch 2, port 1. *)
Definition msg_s2_p1 : OFPPacketIn := PacketIn 2 OFP_NO_BUFFER 1 [].

(** Packet-in from switch 1, port 1, held in buffer 0. *)
Definition msg_s1_buf0 : OFPPacketIn := PacketIn 1 0 1 [].

(** Switch 1 has seen H4 on the flood port. *)
Definition app_h4_on_flood_port : app :=
  App {[ 1 := {[ mac_h4 := OFPP_FLOOD ]} ]} [].

(** * Properties *)

(** ** The monad and the table operations *)

Lemma bind_ret {A B} (a : A) (k : A -> M B) : bind (ret a) k = k a.
Proof. reflexivity. Qed.

Lemma learn_steps {B} d m p (k : gmap string Z -> M B) st :
  (setdefault d ;;; setitem d m p ;;; tbl <- getitem d ;; k tbl) st
  = k (<[m := p]> (default ∅ (mac_to_port st !! d)))
      (App (learn d m p (mac_to_port st)) (sent st)).
Proof.
  unfold bind, setdefault, setitem, getitem, learn.
  destruct (mac_to_port st !! d) as [t|] eqn:Hd; simpl.
  - rewrite Hd. simpl. by rewrite lookup_insert_eq.
  - rewrite lookup_insert_eq. simpl. rewrite lookup_insert_eq.
    by rewrite insert_insert_eq.
Qed.

Lemma entry_learn d m p t d' m' :
  entry (learn d m p t) d' m' =
  if bool_decide (d = d' /\ m = m') then Some p else entry t d' m'.
Proof.
  unfold entry, learn. case_bool_decide as Hdm.
  - destruct Hdm as [-> ->]. rewrite lookup_insert_eq. simpl.
    by rewrite lookup_insert_eq.
  - destruct (decide (d = d')) as [->|Hd].
    + rewrite lookup_insert_eq. simpl.
      rewrite lookup_insert_ne by naive_solver.
      by destruct (t !! d').
    + by rewrite lookup_insert_ne.
Qed.

(** On a switch with no recorded address, a destination other than the
    source resolves to the flood port. *)
Lemma out_port_fresh st msg e :
  (forall mac, entry (mac_to_port st) (msg_datapath msg) mac = None) ->
  src e <> dst e ->
  out_port_of st msg e = OFPP_FLOOD.
Proof.
  intros Hfresh Hne. unfold out_port_of.
  rewrite lookup_insert_ne by done.
  specialize (Hfresh (dst e)). unfold entry in Hfresh.
  destruct (mac_to_port st !! msg_datapath msg) as [t|]; simpl in *.
  - by rewrite Hfresh.
  - by rewrite lookup_empty.
Qed.

(** ** Running the handlers *)

Ltac start_handler He :=
  rewrite He; cbn [attr_of]; rewrite bind_ret.

Ltac finish :=
  cbv [bind ret raise attr_of Teste2.add_flow Teste3.add_flow Teste4_5.add_flow
       send_msg fst snd andb negb];
  unfold emit, learned; cbn [sent mac_to_port];
  rewrite <- ?app_assoc; reflexivity.

Ltac decide_designated Hip Hd :=
  rewrite (bool_decide_eq_false_2 (4 = OFPP_FLOOD)) by done;
  rewrite (bool_decide_eq_true_2 _ Hip), (bool_decide_eq_true_2 _ Hd);
  rewrite (bool_decide_eq_true_2 (4 = 4)) by done.

Lemma ip_not_lldp e : ethertype e = ETH_TYPE_IP -> ethertype e <> ETH_TYPE_LLDP.
Proof. intros ->. done. Qed.

Module Teste2_facts.
Section Facts.
Context `{PacketLib}.
Import Teste2.
Implicit Types (msg : OFPPacketIn) (st : app) (e : ethernet) (ip : ipv4).

Ltac learn_step st msg e He Hl :=
  unfold _packet_in_handler; start_handler He;
  rewrite (bool_decide_eq_false_2 _ Hl);
  rewrite learn_steps;
  change (match <[src e := msg_in_port msg]>
                  (default ∅ (mac_to_port st !! msg_datapath msg)) !! dst e
          with Some p => p | None => OFPP_FLOOD end)
    with (out_port_of st msg e);
  fold (learned st msg e).

Lemma t2_handler_malformed msg st :
  get_protocol_ethernet (Packet (msg_data msg)) = None ->
  _packet_in_handler msg st = (Raised (AttributeError "ethertype"), st).
Proof.
  intros He. unfold _packet_in_handler. rewrite He. reflexivity.
Qed.

Lemma t2_handler_lldp msg st e :
  get_protocol_ethernet (Packet (msg_data msg)) = Some e ->
  ethertype e = ETH_TYPE_LLDP ->
  _packet_in_handler msg st = (Returned tt, st).
Proof.
  intros He Hl. unfold _packet_in_handler. start_handler He.
  by rewrite (bool_decide_eq_true_2 _ Hl).
Qed.

Lemma t2_handler_flood msg st e :
  get_protocol_ethernet (Packet (msg_data msg)) = Some e ->
  ethertype e <> ETH_TYPE_LLDP ->
  out_port_of st msg e = OFPP_FLOOD ->
  _packet_in_handler msg st =
  (Returned tt, emit (learned st msg e) [packet_out_of msg [OFPActionOutput1 OFPP_FLOOD]]).
Proof.
  intros He Hl Hout. learn_step st msg e He Hl.
  rewrite Hout. reflexivity.
Qed.

Lemma t2_handler_plain msg st e :
  get_protocol_ethernet (Packet (msg_data msg)) = Some e ->
  ethertype e <> ETH_TYPE_LLDP ->
  out_port_of st msg e <> OFPP_FLOOD ->
  ~ (ethertype e = ETH_TYPE_IP /\ msg_datapath msg = 1 /\ out_port_of st msg e = 4) ->
  _packet_in_handler msg st =
  (Returned tt,
   emit (learned st msg e)
     [flow_mod_of msg (OFPMatch_l2 (msg_in_port msg) (dst e))
        [OFPActionOutput1 (out_port_of st msg e)];
      packet_out_of msg [OFPActionOutput1 (out_port_of st msg e)]]).
Proof.
  intros He Hl Hout Hno. learn_step st msg e He Hl.
  rewrite (bool_decide_eq_false_2 _ Hout). cbn [negb].
  unfold packet_out_of. repeat case_bool_decide.
  all: try (exfalso; apply Hno; done).
  all: finish.
Qed.

Lemma t2_handler_headerless msg st e :
  get_protocol_ethernet (Packet (msg_data msg)) = Some e ->
  ethertype e = ETH_TYPE_IP ->
  msg_datapath msg = 1 ->
  out_port_of st msg e = 4 ->
  get_protocol_ipv4 (Packet (msg_data msg)) = None ->
  _packet_in_handler msg st = (Raised (AttributeError "src"), learned st msg e).
Proof.
  intros He Hip Hd Hout Hno.
  pose proof (ip_not_lldp e Hip) as Hl.
  learn_step st msg e He Hl.
  rewrite Hout, Hno. decide_designated Hip Hd.
  reflexivity.
Qed.

Lemma t2_handler_classified msg st e ip :
  get_protocol_ethernet (Packet (msg_data msg)) = Some e ->
  ethertype e = ETH_TYPE_IP ->
  msg_datapath msg = 1 ->
  out_port_of st msg e = 4 ->
  get_protocol_ipv4 (Packet (msg_data msg)) = Some ip ->
  _packet_in_handler msg st =
  (Returned tt,
   emit (learned st msg e)
     (if is_h1_h4 ip then
        [flow_mod_of msg (OFPMatch_ip ETH_TYPE_IP (ip_src ip) (ip_dst ip))
           [OFPActionSetQueue 1; OFPActionOutput1 4];
         packet_out_of msg [OFPActionSetQueue 1; OFPActionOutput1 4]]
      else if is_h3_h4 ip then
        [flow_mod_of msg (OFPMatch_ip ETH_TYPE_IP (ip_src ip) (ip_dst ip))
           [OFPActionSetQueue 2; OFPActionOutput1 4];
         packet_out_of msg [OFPActionSetQueue 2; OFPActionOutput1 4]]
      else
        [flow_mod_of msg (OFPMatch_l2 (msg_in_port msg) (dst e)) [OFPActionOutput1 4];
         packet_out_of msg [OFPActionOutput1 4]])).
Proof.
  intros He Hip Hd Hout Hsome.
  pose proof (ip_not_lldp e Hip) as Hl.
  learn_step st msg e He Hl.
  rewrite Hout, Hsome. decide_designated Hip Hd.
  cbv [bind ret attr_of andb negb].
  destruct (is_h1_h4 ip); [finish|].
  destruct (is_h3_h4 ip); finish.
Qed.

Lemma t2_handler_handled msg st : handled msg st (_packet_in_handler msg st).
Proof.
  destruct (get_protocol_ethernet (Packet (msg_data msg))) as [e|] eqn:He.
  2: { rewrite t2_handler_malformed by done. by constructor. }
  destruct (decide (ethertype e = ETH_TYPE_LLDP)) as [Hl|Hl].
  { rewrite (t2_handler_lldp msg st e) by done. by econstructor. }
  destruct (decide (out_port_of st msg e = OFPP_FLOOD)) as [Hout|Hout].
  { rewrite (t2_handler_flood msg st e) by done. by constructor. }
  destruct (decide (ethertype e = ETH_TYPE_IP /\ msg_datapath msg = 1
                    /\ out_port_of st msg e = 4)) as [(Hip & Hd & H4)|Hno].
  2: { rewrite (t2_handler_plain msg st e) by done. by constructor. }
  destruct (get_protocol_ipv4 (Packet (msg_data msg))) as [ip|] eqn:Hh.
  2: { rewrite (t2_handler_headerless msg st e) by done. by constructor. }
  rewrite (t2_handler_classified msg st e ip) by done.
  destruct (is_h1_h4 ip); [by constructor|].
  destruct (is_h3_h4 ip); by constructor.
Qed.

Lemma t2_features_sent datapath st :
  switch_features_handler datapath st =
  (Returned tt,
   emit st
     [MsgFlowMod
        (FlowMod datapath OFP_NO_BUFFER 0 (Match None None None None None)
           [OFPInstructionActions OFPIT_APPLY_ACTIONS
              [OFPActionOutput OFPP_CONTROLLER OFPCML_NO_BUFFER]])]).
Proof. reflexivity. Qed.

End Facts.
End Teste2_facts.

Module Teste3_facts.
Section Facts.
Context `{PacketLib}.
Import Teste3.
Implicit Types (msg : OFPPacketIn) (st : app) (e : ethernet) (ip : ipv4).

Ltac learn_step st msg e He Hl :=
  unfold _packet_in_handler; start_handler He;
  rewrite (bool_decide_eq_false_2 _ Hl);
  rewrite learn_steps;
  fold (out_port_of st msg e);
  fold (learned st msg e).

Lemma t3_handler_malformed msg st :
  get_protocol_ethernet (Packet (msg_data msg)) = None ->
  _packet_in_handler msg st = (Raised (AttributeError "ethertype"), st).
Proof.
  intros He. unfold _packet_in_handler. rewrite He. reflexivity.
Qed.

Lemma t3_handler_lldp msg st e :
  get_protocol_ethernet (Packet (msg_data msg)) = Some e ->
  ethertype e = ETH_TYPE_LLDP ->
  _packet_in_handler msg st = (Returned tt, st).
Proof.
  intros He Hl. unfold _packet_in_handler. start_handler He.
  by rewrite (bool_decide_eq_true_2 _ Hl).
Qed.

Lemma t3_handler_flood msg st e :
  get_protocol_ethernet (Packet (msg_data msg)) = Some e ->
  ethertype e <> ETH_TYPE_LLDP ->
  out_port_of st msg e = OFPP_FLOOD ->
  _packet_in_handler msg st =
  (Returned tt, emit (learned st msg e) [packet_out_of msg [OFPActionOutput1 OFPP_FLOOD]]).
Proof.
  intros He Hl Hout. learn_step st msg e He Hl.
  rewrite Hout. reflexivity.
Qed.

Lemma t3_handler_plain msg st e :
  get_protocol_ethernet (Packet (msg_data msg)) = Some e ->
  ethertype e <> ETH_TYPE_LLDP ->
  out_port_of st msg e <> OFPP_FLOOD ->
  ~ (ethertype e = ETH_TYPE_IP /\ msg_datapath msg = 1 /\ out_port_of st msg e = 4) ->
  _packet_in_handler msg st =
  (Returned tt,
   emit (learned st msg e)
     [flow_mod_of msg (OFPMatch_l2 (msg_in_port msg) (dst e))
        [OFPActionOutput1 (out_port_of st msg e)];
      packet_out_of msg [OFPActionOutput1 (out_port_of st msg e)]]).
Proof.
  intros He Hl Hout Hno. learn_step st msg e He Hl.
  rewrite (bool_decide_eq_false_2 _ Hout). cbn [negb].
  unfold packet_out_of. repeat case_bool_decide.
  all: try (exfalso; apply Hno; done).
  all: finish.
Qed.

Lemma t3_handler_headerless msg st e :
  get_protocol_ethernet (Packet (msg_data msg)) = Some e ->
  ethertype e = ETH_TYPE_IP ->
  msg_datapath msg = 1 ->
  out_port_of st msg e = 4 ->
  get_protocol_ipv4 (Packet (msg_data msg)) = None ->
  _packet_in_handler msg st = (Raised (AttributeError "src"), learned st msg e).
Proof.
  intros He Hip Hd Hout Hno.
  pose proof (ip_not_lldp e Hip) as Hl.
  learn_step st msg e He Hl.
  rewrite Hout, Hno. decide_designated Hip Hd.
  reflexivity.
Qed.

Lemma t3_handler_classified msg st e ip :
  get_protocol_ethernet (Packet (msg_data msg)) = Some e ->
  ethertype e = ETH_TYPE_IP ->
  msg_datapath msg = 1 ->
  out_port_of st msg e = 4 ->
  get_protocol_ipv4 (Packet (msg_data msg)) = Some ip ->
  _packet_in_handler msg st =
  (Returned tt,
   emit (learned st msg e)
     (if is_high ip then
        [flow_mod_of msg (OFPMatch_ip ETH_TYPE_IP (ip_src ip) (ip_dst ip))
           [OFPActionSetQueue 1; OFPActionOutput1 4];
         packet_out_of msg [OFPActionSetQueue 1; OFPActionOutput1 4]]
      else if is_low ip then
        [flow_mod_of msg (OFPMatch_ip ETH_TYPE_IP (ip_src ip) (ip_dst ip))
           [OFPActionSetQueue 2; OFPActionOutput1 4];
         packet_out_of msg [OFPActionSetQueue 2; OFPActionOutput1 4]]
      else
        [flow_mod_of msg (OFPMatch_l2 (msg_in_port msg) (dst e)) [OFPActionOutput1 4];
         packet_out_of msg [OFPActionOutput1 4]])).
Proof.
  intros He Hip Hd Hout Hsome.
  pose proof (ip_not_lldp e Hip) as Hl.
  learn_step st msg e He Hl.
  rewrite Hout, Hsome. decide_designated Hip Hd.
  cbv [bind ret attr_of andb negb].
  destruct (is_high ip); [finish|].
  destruct (is_low ip); finish.
Qed.

Lemma t3_handler_handled msg st : handled msg st (_packet_in_handler msg st).
Proof.
  destruct (get_protocol_ethernet (Packet (msg_data msg))) as [e|] eqn:He.
  2: { rewrite t3_handler_malformed by done. by constructor. }
  destruct (decide (ethertype e = ETH_TYPE_LLDP)) as [Hl|Hl].
  { rewrite (t3_handler_lldp msg st e) by done. by econstructor. }
  destruct (decide (out_port_of st msg e = OFPP_FLOOD)) as [Hout|Hout].
  { rewrite (t3_handler_flood msg st e) by done. by constructor. }
  destruct (decide (ethertype e = ETH_TYPE_IP /\ msg_datapath msg = 1
                    /\ out_port_of st msg e = 4)) as [(Hip & Hd & H4)|Hno].
  2: { rewrite (t3_handler_plain msg st e) by done. by constructor. }
  destruct (get_protocol_ipv4 (Packet (msg_data msg))) as [ip|] eqn:Hh.
  2: { rewrite (t3_handler_headerless msg st e) by done. by constructor. }
  rewrite (t3_handler_classified msg st e ip) by done.
  destruct (is_high ip); [by constructor|].
  destruct (is_low ip); by constructor.
Qed.

Lemma t3_features_sent datapath st :
  switch_features_handler datapath st =
  (Returned tt,
   emit st
     [MsgFlowMod
        (FlowMod datapath OFP_NO_BUFFER 0 (Match None None None None None)
           [OFPInstructionActions OFPIT_APPLY_ACTIONS
              [OFPActionOutput OFPP_CONTROLLER OFPCML_NO_BUFFER]])]).
Proof. reflexivity. Qed.

End Facts.
End Teste3_facts.

Module Teste4_5_facts.
Section Facts.
Context `{PacketLib}.
Import Teste4_5.
Implicit Types (msg : OFPPacketIn) (st : app) (e : ethernet).

Ltac learn_step st msg e He Hl :=
  unfold _packet_in_handler; start_handler He;
  rewrite (bool_decide_eq_false_2 _ Hl);
  rewrite learn_steps;
  fold (out_port_of st msg e);
  fold (learned st msg e).

Lemma t45_handler_malformed msg st :
  get_protocol_ethernet (Packet (msg_data msg)) = None ->
  _packet_in_handler msg st = (Raised (AttributeError "ethertype"), st).
Proof.
  intros He. unfold _packet_in_handler. rewrite He. reflexivity.
Qed.

Lemma t45_handler_lldp msg st e :
  get_protocol_ethernet (Packet (msg_data msg)) = Some e ->
  ethertype e = ETH_TYPE_LLDP ->
  _packet_in_handler msg st = (Returned tt, st).
Proof.
  intros He Hl. unfold _packet_in_handler. start_handler He.
  by rewrite (bool_decide_eq_true_2 _ Hl).
Qed.

Lemma t45_handler_flood msg st e :
  get_protocol_ethernet (Packet (msg_data msg)) = Some e ->
  ethertype e <> ETH_TYPE_LLDP ->
  out_port_of st msg e = OFPP_FLOOD ->
  _packet_in_handler msg st =
  (Returned tt, emit (learned st msg e) [packet_out_of msg [OFPActionOutput1 OFPP_FLOOD]]).
Proof.
  intros He Hl Hout. learn_step st msg e He Hl.
  rewrite Hout. reflexivity.
Qed.

Lemma t45_handler_plain msg st e :
  get_protocol_ethernet (Packet (msg_data msg)) = Some e ->
  ethertype e <> ETH_TYPE_LLDP ->
  out_port_of st msg e <> OFPP_FLOOD ->
  _packet_in_handler msg st =
  (Returned tt,
   emit (learned st msg e)
     [flow_mod_of msg (OFPMatch_l2 (msg_in_port msg) (dst e))
        [OFPActionOutput1 (out_port_of st msg e)];
      packet_out_of msg [OFPActionOutput1 (out_port_of st msg e)]]).
Proof.
  intros He Hl Hout. learn_step st msg e He Hl.
  rewrite (bool_decide_eq_false_2 _ Hout). cbn [negb].
  finish.
Qed.

Lemma t45_handler_handled msg st : handled msg st (_packet_in_handler msg st).
Proof.
  destruct (get_protocol_ethernet (Packet (msg_data msg))) as [e|] eqn:He.
  2: { rewrite t45_handler_malformed by done. by constructor. }
  destruct (decide (ethertype e = ETH_TYPE_LLDP)) as [Hl|Hl].
  { rewrite (t45_handler_lldp msg st e) by done. by econstructor. }
  destruct (decide (out_port_of st msg e = OFPP_FLOOD)) as [Hout|Hout].
  { rewrite (t45_handler_flood msg st e) by done. by constructor. }
  rewrite (t45_handler_plain msg st e) by done. by constructor.
Qed.

Lemma t45_features_sent datapath st :
  switch_features_handler datapath st =
  (Returned tt,
   emit st
     [MsgFlowMod
        (FlowMod datapath OFP_NO_BUFFER 0 (Match None None None None None)
           [OFPInstructionActions OFPIT_APPLY_ACTIONS
              [OFPActionOutput OFPP_CONTROLLER OFPCML_NO_BUFFER]])]).
Proof. reflexivity. Qed.

End Facts.
End Teste4_5_facts.

(** ** Consequences of the shape of a handler's result *)

Section Handled.
Context `{PacketLib}.
Implicit Types (msg : OFPPacketIn) (st : app) (e : ethernet)
  (r : outcome unit * app).

Lemma handled_table msg st r :
  handled msg st r ->
  mac_to_port r.2 = mac_to_port st \/
  exists e,
    get_protocol_ethernet (Packet (msg_data msg)) = Some e /\
    ethertype e <> ETH_TYPE_LLDP /\
    mac_to_port r.2 =
      learn (msg_datapath msg) (src e) (msg_in_port msg) (mac_to_port st).
Proof.
  destruct 1; simpl; eauto 6.
Qed.

Lemma install_before_send_nil : install_before_send [].
Proof. intros i j fm po Hi. by rewrite lookup_nil in Hi. Qed.

Lemma install_before_send_one po : install_before_send [MsgPacketOut po].
Proof.
  intros i j fm po' Hi. destruct i as [|i]; simpl in Hi; [done|].
  by rewrite lookup_nil in Hi.
Qed.

Lemma install_before_send_two fm po :
  install_before_send [MsgFlowMod fm; MsgPacketOut po].
Proof.
  intros i j fm' po' Hi Hj.
  destruct i as [|[|i]]; simpl in Hi; try done.
  destruct j as [|[|j]]; simpl in Hj; try done. lia.
Qed.

Lemma handled_sent msg st r :
  handled msg st r ->
  exists ms,
    sent r.2 = sent st ++ ms /\
    install_before_send ms /\
    (forall fm, In (MsgFlowMod fm) ms -> fm_priority fm = 1).
Proof.
  destruct 1; simpl.
  - exists []. rewrite app_nil_r. split_and!; [done|apply install_before_send_nil|].
    by intros fm [].
  - exists []. rewrite app_nil_r. split_and!; [done|apply install_before_send_nil|].
    by intros fm [].
  - eexists. split_and!; [done|apply install_before_send_one|].
    intros fm [Hin|[]]. discriminate Hin.
  - eexists. split_and!; [done|apply install_before_send_two|].
    intros fm [Hin|[Hin|[]]]; [|discriminate Hin].
    unfold flow_mod_of in Hin. by injection Hin as <-.
  - exists []. rewrite app_nil_r. split_and!; [done|apply install_before_send_nil|].
    by intros fm [].
Qed.

Lemma handled_deliver_shape msg st r e :
  handled msg st r ->
  get_protocol_ethernet (Packet (msg_data msg)) = Some e ->
  ethertype e <> ETH_TYPE_LLDP ->
  out_port_of st msg e <> OFPP_FLOOD ->
  exists ms,
    sent r.2 = sent st ++ ms /\
    install_before_send ms /\
    (r.1 = Returned tt -> exists fm po, ms = [MsgFlowMod fm; MsgPacketOut po]).
Proof.
  intros Hr He Hl Hout.
  destruct Hr as [He'|e' He' Hl'|e' He' Hl' Hout'|e' m a He' Hl' Hout'|e' He' Hl' Hout' Hh];
    rewrite He in He'; try discriminate He';
    injection He' as <-; try done; simpl.
  - eexists. split_and!; [done|apply install_before_send_two|]. eauto.
  - exists []. rewrite app_nil_r. split_and!; [done|apply install_before_send_nil|done].
Qed.

End Handled.

(** ** The learning table along a run of the event loop *)

Section Learning.
Context `{PacketLib}.
Variable switch_features_handler : Z -> M unit.
Variable packet_in_handler : OFPPacketIn -> M unit.
Hypothesis features_table :
  forall datapath st,
    mac_to_port (switch_features_handler datapath st).2 = mac_to_port st.
Hypothesis packet_in_handled :
  forall msg st, handled msg st (packet_in_handler msg st).

Abbreviation step := (step switch_features_handler packet_in_handler).
Abbreviation run := (run switch_features_handler packet_in_handler).

Lemma observed_mono evs evs' d mac port :
  observed evs d mac port -> observed (evs ++ evs') d mac port.
Proof.
  intros (msg & e & Hin & Hrest). exists msg, e. split; [|done].
  apply in_or_app. by left.
Qed.

Lemma step_table st ev :
  mac_to_port (step st ev) = mac_to_port st \/
  exists msg e,
    ev = EventOFPPacketIn msg /\
    get_protocol_ethernet (Packet (msg_data msg)) = Some e /\
    ethertype e <> ETH_TYPE_LLDP /\
    mac_to_port (step st ev) =
      learn (msg_datapath msg) (src e) (msg_in_port msg) (mac_to_port st).
Proof.
  destruct ev as [datapath|msg]; unfold step, dispatch; simpl.
  - left. apply features_table.
  - destruct (handled_table msg st _ (packet_in_handled msg st))
      as [Heq|(e & He & Hl & Heq)]; [by left|].
    right. by exists msg, e.
Qed.

Lemma step_accounted evs st ev :
  accounted evs (mac_to_port st) ->
  accounted (evs ++ [ev]) (mac_to_port (step st ev)).
Proof.
  intros Hacc d mac port Hentry.
  destruct (step_table st ev) as [Heq|(msg & e & -> & He & Hl & Heq)];
    rewrite Heq in Hentry.
  - apply observed_mono. by apply Hacc.
  - rewrite entry_learn in Hentry. case_bool_decide as Hdm.
    + destruct Hdm as [<- <-]. injection Hentry as <-.
      exists msg, e. split_and!; try done.
      apply in_or_app. right. by left.
    + apply observed_mono. by apply Hacc.
Qed.

Lemma step_grows st ev d mac :
  is_Some (entry (mac_to_port st) d mac) ->
  is_Some (entry (mac_to_port (step st ev)) d mac).
Proof.
  intros Hsome.
  destruct (step_table st ev) as [Heq|(msg & e & -> & He & Hl & Heq)];
    rewrite Heq; [done|].
  rewrite entry_learn. by case_bool_decide.
Qed.

Lemma run_accounted_from evs hist st :
  accounted hist (mac_to_port st) ->
  accounted (hist ++ evs) (mac_to_port (run evs st)).
Proof.
  revert hist st. induction evs as [|ev evs IH]; intros hist st Hacc.
  - by rewrite app_nil_r.
  - simpl. replace (hist ++ ev :: evs) with ((hist ++ [ev]) ++ evs)
      by (by rewrite <- app_assoc).
    apply IH. by apply step_accounted.
Qed.

Lemma accounted_init : accounted [] (mac_to_port init).
Proof. intros d mac port Hentry. unfold entry in Hentry. simpl in Hentry.
  by rewrite lookup_empty in Hentry. Qed.

Lemma run_accounted evs : accounted evs (mac_to_port (run evs init)).
Proof. apply (run_accounted_from evs [] init), accounted_init. Qed.

End Learning.

(** * The claims *)

(** ** Classification *)

(** C1.  Two-tier controller, packet-in resolved to a known port
    (Deliver).  On switch 1 with output port 4, an IPv4 frame from
    10.0.0.1 to 10.0.0.4 is installed and sent with the action list
    [SetQueue 1; Output 4]; from 10.0.0.3 to 10.0.0.4 with
    [SetQueue 2; Output 4]; every other combination of source,
    destination, switch and output port (and every frame that is not
    IPv4) is installed and sent with the single action [Output out_port],
    hence with no queue-setting action. *)
Theorem two_tier_classification `{PacketLib} msg st e ip :
  get_protocol_ethernet (Packet (msg_data msg)) = Some e ->
  ethertype e <> ETH_TYPE_LLDP ->
  out_port_of st msg e <> OFPP_FLOOD ->
  (ethertype e = ETH_TYPE_IP ->
   get_protocol_ipv4 (Packet (msg_data msg)) = Some ip) ->
  let out_port := out_port_of st msg e in
  let designated :=
    ethertype e = ETH_TYPE_IP /\ msg_datapath msg = 1 /\ out_port = 4 in
  let result mtch actions :=
    (Returned tt,
     emit (learned st msg e)
       [flow_mod_of msg mtch actions; packet_out_of msg actions]) in
  (designated -> ip_src ip = "10.0.0.1" -> ip_dst ip = "10.0.0.4" ->
   Teste2._packet_in_handler msg st =
   result (OFPMatch_ip ETH_TYPE_IP "10.0.0.1" "10.0.0.4")
     [OFPActionSetQueue 1; OFPActionOutput1 4]) /\
  (designated -> ip_src ip = "10.0.0.3" -> ip_dst ip = "10.0.0.4" ->
   Teste2._packet_in_handler msg st =
   result (OFPMatch_ip ETH_TYPE_IP "10.0.0.3" "10.0.0.4")
     [OFPActionSetQueue 2; OFPActionOutput1 4]) /\
  (~ (designated /\
      (ip_src ip = "10.0.0.1" \/ ip_src ip = "10.0.0.3") /\
      ip_dst ip = "10.0.0.4") ->
   Teste2._packet_in_handler msg st =
   result (OFPMatch_l2 (msg_in_port msg) (dst e)) [OFPActionOutput1 out_port]).
Proof.
  intros He Hl Hout Hhdr out_port designated result.
  subst out_port designated result. cbv beta.
  split_and!.
  - intros (Hip & Hd & H4) Hs Hdst.
    rewrite (Teste2_facts.t2_handler_classified msg st e ip) by auto.
    unfold Teste2.is_h1_h4. rewrite Hs, Hdst. reflexivity.
  - intros (Hip & Hd & H4) Hs Hdst.
    rewrite (Teste2_facts.t2_handler_classified msg st e ip) by auto.
    unfold Teste2.is_h1_h4, Teste2.is_h3_h4. rewrite Hs, Hdst. reflexivity.
  - intros Hother.
    destruct (decide (ethertype e = ETH_TYPE_IP /\ msg_datapath msg = 1
                      /\ out_port_of st msg e = 4)) as [(Hip & Hd & H4)|Hno].
    2: { by apply Teste2_facts.t2_handler_plain. }
    rewrite (Teste2_facts.t2_handler_classified msg st e ip) by auto.
    rewrite H4.
    unfold Teste2.is_h1_h4, Teste2.is_h3_h4.
    repeat case_bool_decide; simpl; try reflexivity; exfalso; apply Hother; auto.
Qed.

Lemma two_tier_classification_witness :
  @Teste2._packet_in_handler (decode_as frame_h1_h4) msg_s1_p1 app_knows_h4 =
  (Returned tt,
   emit (learned app_knows_h4 msg_s1_p1 (Ethernet mac_h4 mac_h1 ETH_TYPE_IP))
     [flow_mod_of msg_s1_p1 (OFPMatch_ip ETH_TYPE_IP "10.0.0.1" "10.0.0.4")
        [OFPActionSetQueue 1; OFPActionOutput1 4];
      packet_out_of msg_s1_p1 [OFPActionSetQueue 1; OFPActionOutput1 4]]).
Proof.
  refine (proj1 (@two_tier_classification (decode_as frame_h1_h4)
            msg_s1_p1 app_knows_h4 (Ethernet mac_h4 mac_h1 ETH_TYPE_IP)
            (Ipv4 "10.0.0.1" "10.0.0.4") _ _ _ _) _ _ _).
  - reflexivity.
  - vm_compute. discriminate.
  - vm_compute. discriminate.
  - reflexivity.
  - vm_compute. auto.
  - reflexivity.
  - reflexivity.
Defined.

(** C8.  Three-tier controller, packet-in resolved to a known port.  On
    switch 1 with output port 4 and an IPv4 frame, source 10.0.0.2 gets
    [SetQueue 1; Output 4], sources 10.0.0.1 and 10.0.0.3 both get
    [SetQueue 2; Output 4], and every other flow gets the single action
    [Output out_port]; the two source tests never hold together. *)
Theorem three_tier_classification `{PacketLib} msg st e ip :
  get_protocol_ethernet (Packet (msg_data msg)) = Some e ->
  ethertype e <> ETH_TYPE_LLDP ->
  out_port_of st msg e <> OFPP_FLOOD ->
  (ethertype e = ETH_TYPE_IP ->
   get_protocol_ipv4 (Packet (msg_data msg)) = Some ip) ->
  let out_port := out_port_of st msg e in
  let designated :=
    ethertype e = ETH_TYPE_IP /\ msg_datapath msg = 1 /\ out_port = 4 in
  let result mtch actions :=
    (Returned tt,
     emit (learned st msg e)
       [flow_mod_of msg mtch actions; packet_out_of msg actions]) in
  (designated -> ip_src ip = "10.0.0.2" ->
   Teste3._packet_in_handler msg st =
   result (OFPMatch_ip ETH_TYPE_IP "10.0.0.2" (ip_dst ip))
     [OFPActionSetQueue 1; OFPActionOutput1 4]) /\
  (designated -> ip_src ip = "10.0.0.1" \/ ip_src ip = "10.0.0.3" ->
   Teste3._packet_in_handler msg st =
   result (OFPMatch_ip ETH_TYPE_IP (ip_src ip) (ip_dst ip))
     [OFPActionSetQueue 2; OFPActionOutput1 4]) /\
  (~ (designated /\
      (ip_src ip = "10.0.0.2" \/ ip_src ip = "10.0.0.1" \/
       ip_src ip = "10.0.0.3")) ->
   Teste3._packet_in_handler msg st =
   result (OFPMatch_l2 (msg_in_port msg) (dst e)) [OFPActionOutput1 out_port]) /\
  (forall ip', ~ (Teste3.is_high ip' = true /\ Teste3.is_low ip' = true)).
Proof.
  intros He Hl Hout Hhdr out_port designated result.
  subst out_port designated result. cbv beta.
  split_and!.
  - intros (Hip & Hd & H4) Hs.
    rewrite (Teste3_facts.t3_handler_classified msg st e ip) by auto.
    unfold Teste3.is_high. rewrite Hs. reflexivity.
  - intros (Hip & Hd & H4) Hs.
    rewrite (Teste3_facts.t3_handler_classified msg st e ip) by auto.
    unfold Teste3.is_high, Teste3.is_low.
    destruct Hs as [Hs|Hs]; rewrite Hs; reflexivity.
  - intros Hother.
    destruct (decide (ethertype e = ETH_TYPE_IP /\ msg_datapath msg = 1
                      /\ out_port_of st msg e = 4)) as [(Hip & Hd & H4)|Hno].
    2: { by apply Teste3_facts.t3_handler_plain. }
    rewrite (Teste3_facts.t3_handler_classified msg st e ip) by auto.
    rewrite H4.
    unfold Teste3.is_high, Teste3.is_low.
    repeat case_bool_decide; simpl; try reflexivity; exfalso; apply Hother; auto.
  - intros ip' [Hhigh Hlow]. unfold Teste3.is_high, Teste3.is_low in *.
    apply bool_decide_eq_true_1 in Hhigh. rewrite Hhigh in Hlow.
    vm_compute in Hlow. discriminate.
Qed.

Lemma three_tier_classification_witness :
  @Teste3._packet_in_handler (decode_as frame_h2_h4) msg_s1_p1 app_knows_h4 =
  (Returned tt,
   emit (learned app_knows_h4 msg_s1_p1 (Ethernet mac_h4 mac_h2 ETH_TYPE_IP))
     [flow_mod_of msg_s1_p1 (OFPMatch_ip ETH_TYPE_IP "10.0.0.2" "10.0.0.4")
        [OFPActionSetQueue 1; OFPActionOutput1 4];
      packet_out_of msg_s1_p1 [OFPActionSetQueue 1; OFPActionOutput1 4]]).
Proof.
  refine (proj1 (@three_tier_classification (decode_as frame_h2_h4)
            msg_s1_p1 app_knows_h4 (Ethernet mac_h4 mac_h2 ETH_TYPE_IP)
            (Ipv4 "10.0.0.2" "10.0.0.4") _ _ _ _) _ _).
  - reflexivity.
  - vm_compute. discriminate.
  - vm_compute. discriminate.
  - reflexivity.
  - vm_compute. auto.
  - reflexivity.
Defined.

(** C6.  When a classification rule matches (switch 1, output port 4,
    IPv4, and the source test of a rule of the variant holds), the
    installed rule matches exactly on [eth_type = IPv4], [ipv4_src] and
    [ipv4_dst], with neither [in_port] nor [eth_dst], and both the flow-mod
    and the packet-out carry the two actions [SetQueue q; Output 4] in
    that order, where [q] is the queue of the rule that matched: 1 for the
    flow H1 -> H4 and 2 for the flow H3 -> H4 in the two-tier variant, 1
    for the high test and 2 for the low test in the three-tier variant. *)
Theorem classified_rule_shape `{PacketLib} msg st e ip :
  get_protocol_ethernet (Packet (msg_data msg)) = Some e ->
  ethertype e = ETH_TYPE_IP ->
  get_protocol_ipv4 (Packet (msg_data msg)) = Some ip ->
  msg_datapath msg = 1 ->
  out_port_of st msg e = 4 ->
  let shape (q : Z) :=
    (Returned tt,
     emit (learned st msg e)
       [MsgFlowMod
          (FlowMod (msg_datapath msg)
             (py_or (Some (msg_buffer_id msg)) OFP_NO_BUFFER) 1
             (Match None None (Some ETH_TYPE_IP) (Some (ip_src ip)) (Some (ip_dst ip)))
             [OFPInstructionActions OFPIT_APPLY_ACTIONS
                [OFPActionSetQueue q; OFPActionOutput 4 OFPCML_MAX]]);
        MsgPacketOut
          (PacketOut (msg_datapath msg) (msg_buffer_id msg) (msg_in_port msg)
             [OFPActionSetQueue q; OFPActionOutput 4 OFPCML_MAX]
             (if bool_decide (msg_buffer_id msg = OFP_NO_BUFFER)
              then Some (msg_data msg) else None))]) in
  (Teste2.is_h1_h4 ip = true -> Teste2._packet_in_handler msg st = shape 1) /\
  (Teste2.is_h3_h4 ip = true -> Teste2._packet_in_handler msg st = shape 2) /\
  (Teste3.is_high ip = true -> Teste3._packet_in_handler msg st = shape 1) /\
  (Teste3.is_low ip = true -> Teste3._packet_in_handler msg st = shape 2).
Proof.
  intros He Hip Hh Hd H4 shape. subst shape. cbv beta. split; [|split; [|split]].
  - intros Hrule.
    rewrite (Teste2_facts.t2_handler_classified msg st e ip) by auto.
    by rewrite Hrule.
  - intros Hrule.
    rewrite (Teste2_facts.t2_handler_classified msg st e ip) by auto.
    rewrite Hrule.
    assert (Hnot : Teste2.is_h1_h4 ip = false).
    { unfold Teste2.is_h1_h4, Teste2.is_h3_h4 in *.
      apply andb_true_iff in Hrule as [Hsrc _].
      apply bool_decide_eq_true_1 in Hsrc. by rewrite Hsrc. }
    by rewrite Hnot.
  - intros Hrule.
    rewrite (Teste3_facts.t3_handler_classified msg st e ip) by auto.
    by rewrite Hrule.
  - intros Hrule.
    rewrite (Teste3_facts.t3_handler_classified msg st e ip) by auto.
    rewrite Hrule.
    assert (Hnot : Teste3.is_high ip = false).
    { unfold Teste3.is_high, Teste3.is_low in *.
      apply orb_true_iff in Hrule as [Hsrc|Hsrc];
        apply bool_decide_eq_true_1 in Hsrc; by rewrite Hsrc. }
    by rewrite Hnot.
Qed.

Lemma classified_rule_shape_witness :
  @Teste2._packet_in_handler (decode_as frame_h1_h4) msg_s1_p3 app_knows_h4 =
  (Returned tt,
   emit (learned app_knows_h4 msg_s1_p3 (Ethernet mac_h4 mac_h1 ETH_TYPE_IP))
     [MsgFlowMod
        (FlowMod 1 7 1
           (Match None None (Some ETH_TYPE_IP) (Some "10.0.0.1") (Some "10.0.0.4"))
           [OFPInstructionActions OFPIT_APPLY_ACTIONS
              [OFPActionSetQueue 1; OFPActionOutput 4 OFPCML_MAX]]);
      MsgPacketOut
        (PacketOut 1 7 3 [OFPActionSetQueue 1; OFPActionOutput 4 OFPCML_MAX] None)]) /\
  @Teste2._packet_in_handler (decode_as frame_h3_h4) msg_s1_p3 app_knows_h4 =
  (Returned tt,
   emit (learned app_knows_h4 msg_s1_p3 (Ethernet mac_h4 mac_h3 ETH_TYPE_IP))
     [MsgFlowMod
        (FlowMod 1 7 1
           (Match None None (Some ETH_TYPE_IP) (Some "10.0.0.3") (Some "10.0.0.4"))
           [OFPInstructionActions OFPIT_APPLY_ACTIONS
              [OFPActionSetQueue 2; OFPActionOutput 4 OFPCML_MAX]]);
      MsgPacketOut
        (PacketOut 1 7 3 [OFPActionSetQueue 2; OFPActionOutput 4 OFPCML_MAX] None)]).
Proof.
  split.
  - refine (proj1 (@classified_rule_shape (decode_as frame_h1_h4)
              msg_s1_p3 app_knows_h4 (Ethernet mac_h4 mac_h1 ETH_TYPE_IP)
              (Ipv4 "10.0.0.1" "10.0.0.4") _ _ _ _ _) _); reflexivity.
  - refine (proj1 (proj2 (@classified_rule_shape (decode_as frame_h3_h4)
              msg_s1_p3 app_knows_h4 (Ethernet mac_h4 mac_h3 ETH_TYPE_IP)
              (Ipv4 "10.0.0.3" "10.0.0.4") _ _ _ _ _)) _); reflexivity.
Defined.

(** ** Frames that are not forwarded *)

(** C5.  A packet-in whose frame has the LLDP ether-type returns at once:
    the state after it is the state before it, so the learning table is
    unchanged (no table is created for the switch either) and no message
    is sent.  This holds for the three controllers. *)
Theorem lldp_is_ignored `{PacketLib} msg st e :
  get_protocol_ethernet (Packet (msg_data msg)) = Some e ->
  ethertype e = ETH_TYPE_LLDP ->
  Teste2._packet_in_handler msg st = (Returned tt, st) /\
  Teste3._packet_in_handler msg st = (Returned tt, st) /\
  Teste4_5._packet_in_handler msg st = (Returned tt, st).
Proof.
  intros He Hl. split_and!.
  - by apply (Teste2_facts.t2_handler_lldp msg st e).
  - by apply (Teste3_facts.t3_handler_lldp msg st e).
  - by apply (Teste4_5_facts.t45_handler_lldp msg st e).
Qed.

Lemma lldp_is_ignored_witness :
  @Teste2._packet_in_handler (decode_as frame_lldp) msg_s1_p1 init
  = (Returned tt, init) /\
  mac_to_port init !! 1 = None.
Proof.
  split.
  - refine (proj1 (@lldp_is_ignored (decode_as frame_lldp) msg_s1_p1 init
                     (Ethernet "01:80:c2:00:00:0e" mac_h1 ETH_TYPE_LLDP) _ _));
      reflexivity.
  - reflexivity.
Defined.

(** C3, as the claim states it, fails: on a frame from which no ethernet
    header is decoded the handler does not return, it raises
    [AttributeError] at [eth.ethertype]. *)
Lemma malformed_frame_raises :
  get_protocol_ethernet (@Packet (decode_as frame_truncated) (msg_data msg_s1_p1))
  = None /\
  (@Teste2._packet_in_handler (decode_as frame_truncated) msg_s1_p1 init).1
  = Raised (AttributeError "ethertype") /\
  (@Teste2._packet_in_handler (decode_as frame_truncated) msg_s1_p1 init).1
  <> Returned tt.
Proof. split_and!; [reflexivity|reflexivity|discriminate]. Qed.

(** C3, amended.  On a frame from which no ethernet header is decoded,
    each of the three handlers ends by raising [AttributeError] before it
    has touched the learning table or sent a message: the state left
    behind is the state before the event, so the event loop goes on from
    an unchanged table with nothing emitted. *)
Theorem malformed_frame_aborts `{PacketLib} msg st :
  get_protocol_ethernet (Packet (msg_data msg)) = None ->
  let aborts (h : OFPPacketIn -> M unit) (sf : Z -> M unit) :=
    h msg st = (Raised (AttributeError "ethertype"), st) /\
    step sf h st (EventOFPPacketIn msg) = st in
  aborts Teste2._packet_in_handler Teste2.switch_features_handler /\
  aborts Teste3._packet_in_handler Teste3.switch_features_handler /\
  aborts Teste4_5._packet_in_handler Teste4_5.switch_features_handler.
Proof.
  intros He aborts. subst aborts. cbv beta. unfold step, dispatch.
  rewrite (Teste2_facts.t2_handler_malformed msg st He).
  rewrite (Teste3_facts.t3_handler_malformed msg st He).
  rewrite (Teste4_5_facts.t45_handler_malformed msg st He).
  done.
Qed.

Lemma malformed_frame_aborts_witness :
  @Teste2._packet_in_handler (decode_as frame_truncated) msg_s1_p1 app_knows_h4
  = (Raised (AttributeError "ethertype"), app_knows_h4).
Proof.
  refine (proj1 (proj1 (@malformed_frame_aborts (decode_as frame_truncated)
                          msg_s1_p1 app_knows_h4 _))).
  reflexivity.
Defined.

(** ** Flooding *)

(** C2, as the claim states it, fails: on a fresh switch, a frame whose
    destination address is its own source address finds the destination
    in the table, because the source is recorded before the destination
    is looked up; a rule is installed and the packet goes out of the
    ingress port instead of being flooded. *)
Lemma flood_until_known_fails :
  (forall mac, entry (mac_to_port init) (msg_datapath msg_s1_p3) mac = None) /\
  get_protocol_ethernet (@Packet (decode_as frame_self) (msg_data msg_s1_p3))
  = Some (Ethernet mac_h1 mac_h1 0x0806) /\
  sent (@Teste2._packet_in_handler (decode_as frame_self) msg_s1_p3 init).2
  = [flow_mod_of msg_s1_p3 (OFPMatch_l2 3 mac_h1) [OFPActionOutput1 3];
     packet_out_of msg_s1_p3 [OFPActionOutput1 3]] /\
  sent (@Teste2._packet_in_handler (decode_as frame_self) msg_s1_p3 init).2
  <> [packet_out_of msg_s1_p3 [OFPActionOutput1 OFPP_FLOOD]].
Proof.
  split_and!.
  - intros mac. unfold entry. simpl. by rewrite lookup_empty.
  - reflexivity.
  - vm_compute. reflexivity.
  - vm_compute. discriminate.
Qed.

(** C2, amended.  On a switch for which no address is recorded, a
    packet-in whose frame is decoded, is not LLDP and has a destination
    address different from its source address is flooded: the only message
    sent is a packet-out whose single action is the output to the flood
    port, and no flow-mod is sent.  This holds for the three controllers. *)
Theorem flood_until_known `{PacketLib} msg st e :
  get_protocol_ethernet (Packet (msg_data msg)) = Some e ->
  ethertype e <> ETH_TYPE_LLDP ->
  (forall mac, entry (mac_to_port st) (msg_datapath msg) mac = None) ->
  src e <> dst e ->
  let flooded :=
    (Returned tt,
     emit (learned st msg e)
       [MsgPacketOut
          (PacketOut (msg_datapath msg) (msg_buffer_id msg) (msg_in_port msg)
             [OFPActionOutput OFPP_FLOOD OFPCML_MAX]
             (if bool_decide (msg_buffer_id msg = OFP_NO_BUFFER)
              then Some (msg_data msg) else None))]) in
  Teste2._packet_in_handler msg st = flooded /\
  Teste3._packet_in_handler msg st = flooded /\
  Teste4_5._packet_in_handler msg st = flooded.
Proof.
  intros He Hl Hfresh Hne flooded. subst flooded.
  pose proof (out_port_fresh st msg e Hfresh Hne) as Hout.
  split_and!.
  - by apply Teste2_facts.t2_handler_flood.
  - by apply Teste3_facts.t3_handler_flood.
  - by apply Teste4_5_facts.t45_handler_flood.
Qed.

Lemma flood_until_known_witness :
  @Teste2._packet_in_handler (decode_as frame_arp_h1) msg_s1_p1 init =
  (Returned tt,
   emit (learned init msg_s1_p1 (Ethernet "ff:ff:ff:ff:ff:ff" mac_h1 0x0806))
     [MsgPacketOut
        (PacketOut 1 OFP_NO_BUFFER 1 [OFPActionOutput OFPP_FLOOD OFPCML_MAX]
           (Some []))]).
Proof.
  refine (proj1 (@flood_until_known (decode_as frame_arp_h1) msg_s1_p1 init
                   (Ethernet "ff:ff:ff:ff:ff:ff" mac_h1 0x0806) _ _ _ _)).
  - reflexivity.
  - vm_compute. discriminate.
  - intros mac. reflexivity.
  - vm_compute. discriminate.
Defined.

(** ** Rules and their order *)

(** C4.  The switch-features handler sends exactly one message, a flow-mod
    with priority 0, an empty match and the single action output to the
    controller; every flow-mod sent by a packet-in handler has priority 1,
    which is above 0.  This holds for the three controllers. *)
Theorem table_miss_and_rule_priority `{PacketLib} :
  let table_miss (datapath : Z) :=
    MsgFlowMod
      (FlowMod datapath OFP_NO_BUFFER 0 (Match None None None None None)
         [OFPInstructionActions OFPIT_APPLY_ACTIONS
            [OFPActionOutput OFPP_CONTROLLER OFPCML_NO_BUFFER]]) in
  let rules_at_one (h : OFPPacketIn -> M unit) :=
    forall msg st, exists ms,
      sent (h msg st).2 = sent st ++ ms /\
      forall fm, In (MsgFlowMod fm) ms -> fm_priority fm = 1 /\ 0 < fm_priority fm in
  (forall datapath st,
     Teste2.switch_features_handler datapath st
     = (Returned tt, emit st [table_miss datapath]) /\
     Teste3.switch_features_handler datapath st
     = (Returned tt, emit st [table_miss datapath]) /\
     Teste4_5.switch_features_handler datapath st
     = (Returned tt, emit st [table_miss datapath])) /\
  rules_at_one Teste2._packet_in_handler /\
  rules_at_one Teste3._packet_in_handler /\
  rules_at_one Teste4_5._packet_in_handler.
Proof.
  intros table_miss rules_at_one.
  assert (Hgen : forall h : OFPPacketIn -> M unit,
             (forall msg st, handled msg st (h msg st)) -> rules_at_one h).
  { intros h Hh msg st.
    destruct (handled_sent msg st _ (Hh msg st)) as (ms & Hs & _ & Hp).
    exists ms. split; [done|]. intros fm Hin. rewrite (Hp fm Hin). done. }
  split_and!.
  - intros datapath st. split_and!.
    + apply Teste2_facts.t2_features_sent.
    + apply Teste3_facts.t3_features_sent.
    + apply Teste4_5_facts.t45_features_sent.
  - apply Hgen, Teste2_facts.t2_handler_handled.
  - apply Hgen, Teste3_facts.t3_handler_handled.
  - apply Hgen, Teste4_5_facts.t45_handler_handled.
Qed.

Lemma table_miss_and_rule_priority_witness :
  exists ms,
    sent (@Teste2._packet_in_handler (decode_as frame_h1_h4) msg_s1_p1 app_knows_h4).2
    = sent app_knows_h4 ++ ms /\
    forall fm, In (MsgFlowMod fm) ms -> fm_priority fm = 1 /\ 0 < fm_priority fm.
Proof.
  exact (proj1 (proj2 (@table_miss_and_rule_priority (decode_as frame_h1_h4)))
           msg_s1_p1 app_knows_h4).
Defined.

(** C7.  When a packet-in resolves to a known port (Deliver), the messages
    the handler sends are in order: no flow-mod comes after a packet-out,
    and when the handler returns they are exactly one flow-mod followed by
    one packet-out.  This holds for the three controllers. *)
Theorem install_precedes_send `{PacketLib} msg st e :
  get_protocol_ethernet (Packet (msg_data msg)) = Some e ->
  ethertype e <> ETH_TYPE_LLDP ->
  out_port_of st msg e <> OFPP_FLOOD ->
  let ordered (r : outcome unit * app) :=
    exists ms,
      sent r.2 = sent st ++ ms /\
      install_before_send ms /\
      (r.1 = Returned tt -> exists fm po, ms = [MsgFlowMod fm; MsgPacketOut po]) in
  ordered (Teste2._packet_in_handler msg st) /\
  ordered (Teste3._packet_in_handler msg st) /\
  ordered (Teste4_5._packet_in_handler msg st).
Proof.
  intros He Hl Hout ordered. subst ordered. cbv beta. split_and!.
  - apply (handled_deliver_shape msg st _ e); [apply Teste2_facts.t2_handler_handled|done..].
  - apply (handled_deliver_shape msg st _ e); [apply Teste3_facts.t3_handler_handled|done..].
  - apply (handled_deliver_shape msg st _ e); [apply Teste4_5_facts.t45_handler_handled|done..].
Qed.

Lemma install_precedes_send_witness :
  exists ms,
    sent (@Teste2._packet_in_handler (decode_as frame_h1_h4) msg_s1_p1 app_knows_h4).2
    = sent app_knows_h4 ++ ms /\
    install_before_send ms /\
    ((@Teste2._packet_in_handler (decode_as frame_h1_h4) msg_s1_p1 app_knows_h4).1
     = Returned tt ->
     exists fm po, ms = [MsgFlowMod fm; MsgPacketOut po]).
Proof.
  refine (proj1 (@install_precedes_send (decode_as frame_h1_h4) msg_s1_p1
                   app_knows_h4 (Ethernet mac_h4 mac_h1 ETH_TYPE_IP) _ _ _)).
  - reflexivity.
  - vm_compute. discriminate.
  - vm_compute. discriminate.
Defined.

(** ** The learning table *)

(** C9.  For each of the three controllers: the empty table of a new
    application is accounted for; every event keeps the table accounted
    for, that is, every entry (switch, address) -> port comes from a
    packet-in of the history, on that switch and that port, with a frame
    that is not LLDP and has that source address; hence so is the table
    after any run from the start; and no event removes an entry. *)
Theorem learning_invariant `{PacketLib} :
  let invariant (sf : Z -> M unit) (h : OFPPacketIn -> M unit) :=
    accounted [] (mac_to_port init) /\
    (forall evs st ev,
       accounted evs (mac_to_port st) ->
       accounted (evs ++ [ev]) (mac_to_port (step sf h st ev))) /\
    (forall evs, accounted evs (mac_to_port (run sf h evs init))) /\
    (forall st ev dpid mac,
       is_Some (entry (mac_to_port st) dpid mac) ->
       is_Some (entry (mac_to_port (step sf h st ev)) dpid mac)) in
  invariant Teste2.switch_features_handler Teste2._packet_in_handler /\
  invariant Teste3.switch_features_handler Teste3._packet_in_handler /\
  invariant Teste4_5.switch_features_handler Teste4_5._packet_in_handler.
Proof.
  intros invariant.
  assert (Hgen : forall sf h,
             (forall datapath st, mac_to_port (sf datapath st).2 = mac_to_port st) ->
             (forall msg st, handled msg st (h msg st)) -> invariant sf h).
  { intros sf h Hsf Hh. split_and!.
    - apply accounted_init.
    - intros evs st ev. by apply step_accounted.
    - intros evs. by apply run_accounted.
    - intros st ev dpid mac. by apply step_grows. }
  split_and!; apply Hgen.
  - done.
  - apply Teste2_facts.t2_handler_handled.
  - done.
  - apply Teste3_facts.t3_handler_handled.
  - done.
  - apply Teste4_5_facts.t45_handler_handled.
Qed.

Lemma learning_invariant_witness :
  @observed (decode_as frame_arp_h1) [EventOFPPacketIn msg_s1_p3] 1 mac_h1 3.
Proof.
  refine (proj1 (proj2 (proj2 (proj1 (@learning_invariant (decode_as frame_arp_h1)))))
            [EventOFPPacketIn msg_s1_p3] 1 mac_h1 3 _).
  vm_compute. reflexivity.
Defined.

(** ** The buffer reference of an installed rule *)

(** C10.  [add_flow] called with buffer reference 0 sends a flow-mod that
    carries [OFP_NO_BUFFER], which is not 0, as it does when no buffer
    reference is given; any other buffer reference is carried as it is.
    This holds for the three controllers. *)
Theorem add_flow_drops_buffer_zero :
  let flow_mod datapath priority mtch actions buffer_id :=
    MsgFlowMod
      (FlowMod datapath buffer_id priority mtch
         [OFPInstructionActions OFPIT_APPLY_ACTIONS actions]) in
  let carries (add_flow : Z -> Z -> OFPMatch -> list action -> option Z -> M unit) :=
    forall datapath priority mtch actions st,
      add_flow datapath priority mtch actions (Some 0) st
      = (Returned tt, emit st [flow_mod datapath priority mtch actions OFP_NO_BUFFER]) /\
      add_flow datapath priority mtch actions None st
      = (Returned tt, emit st [flow_mod datapath priority mtch actions OFP_NO_BUFFER]) /\
      forall b, b <> 0 ->
        add_flow datapath priority mtch actions (Some b) st
        = (Returned tt, emit st [flow_mod datapath priority mtch actions b]) in
  carries Teste2.add_flow /\
  carries Teste3.add_flow /\
  carries Teste4_5.add_flow /\
  OFP_NO_BUFFER <> 0.
Proof.
  intros flow_mod carries.
  assert (Hpy : forall b, b <> 0 -> py_or (Some b) OFP_NO_BUFFER = b).
  { intros b Hb. unfold py_or. by rewrite bool_decide_eq_false_2. }
  split_and!; try done.
  - intros datapath priority mtch actions st. split_and!; try reflexivity.
    intros b Hb. unfold Teste2.add_flow, send_msg, emit. by rewrite Hpy.
  - intros datapath priority mtch actions st. split_and!; try reflexivity.
    intros b Hb. unfold Teste3.add_flow, send_msg, emit. by rewrite Hpy.
  - intros datapath priority mtch actions st. split_and!; try reflexivity.
    intros b Hb. unfold Teste4_5.add_flow, send_msg, emit. by rewrite Hpy.
Qed.

Lemma add_flow_drops_buffer_zero_witness :
  Teste2.add_flow 1 1 OFPMatch_empty [] (Some 7) init
  = (Returned tt,
     emit init
       [MsgFlowMod (FlowMod 1 7 1 OFPMatch_empty
                      [OFPInstructionActions OFPIT_APPLY_ACTIONS []])]).
Proof.
  refine (proj2 (proj2 (proj1 add_flow_drops_buffer_zero 1 1 OFPMatch_empty [] init))
            7 _).
  vm_compute. discriminate.
Defined.

(** * Further properties of the three controllers *)

(** ** The handlers are regular *)

Lemma emit_nil st : emit st [] = st.
Proof. destruct st. unfold emit. simpl. by rewrite app_nil_r. Qed.

Lemma t2_regular `{PacketLib} : regular Teste2._packet_in_handler.
Proof.
  split_and!.
  - apply Teste2_facts.t2_handler_malformed.
  - apply Teste2_facts.t2_handler_lldp.
  - intros msg st e He Hl.
    destruct (decide (out_port_of st msg e = OFPP_FLOOD)) as [Hout|Hout].
    { eexists _, _. split; [by apply answer_flood|]. intros st' Heq.
      apply Teste2_facts.t2_handler_flood; congruence. }
    destruct (decide (ethertype e = ETH_TYPE_IP /\ msg_datapath msg = 1
                      /\ out_port_of st msg e = 4)) as [(Hip & Hd & H4)|Hno].
    2: { eexists _, _. split; [by apply answer_plain|]. intros st' Heq.
         rewrite <- Heq. apply Teste2_facts.t2_handler_plain; congruence. }
    destruct (get_protocol_ipv4 (Packet (msg_data msg))) as [ip|] eqn:Hh.
    2: { eexists _, _. split; [by apply answer_headerless|]. intros st' Heq.
         rewrite emit_nil. apply Teste2_facts.t2_handler_headerless; congruence. }
    rewrite H4.
    destruct (Teste2.is_h1_h4 ip) eqn:H1; [|destruct (Teste2.is_h3_h4 ip) eqn:H3].
    + eexists _, _. split; [apply (answer_queue _ _ _ 1 ip); auto|].
      intros st' Heq.
      rewrite (Teste2_facts.t2_handler_classified msg st' e ip) by congruence.
      by rewrite H1.
    + eexists _, _. split; [apply (answer_queue _ _ _ 2 ip); auto|].
      intros st' Heq.
      rewrite (Teste2_facts.t2_handler_classified msg st' e ip) by congruence.
      by rewrite H1, H3.
    + eexists _, _. split; [by apply answer_plain|].
      intros st' Heq.
      rewrite (Teste2_facts.t2_handler_classified msg st' e ip) by congruence.
      by rewrite H1, H3.
Qed.

Lemma t3_regular `{PacketLib} : regular Teste3._packet_in_handler.
Proof.
  split_and!.
  - apply Teste3_facts.t3_handler_malformed.
  - apply Teste3_facts.t3_handler_lldp.
  - intros msg st e He Hl.
    destruct (decide (out_port_of st msg e = OFPP_FLOOD)) as [Hout|Hout].
    { eexists _, _. split; [by apply answer_flood|]. intros st' Heq.
      apply Teste3_facts.t3_handler_flood; congruence. }
    destruct (decide (ethertype e = ETH_TYPE_IP /\ msg_datapath msg = 1
                      /\ out_port_of st msg e = 4)) as [(Hip & Hd & H4)|Hno].
    2: { eexists _, _. split; [by apply answer_plain|]. intros st' Heq.
         rewrite <- Heq. apply Teste3_facts.t3_handler_plain; congruence. }
    destruct (get_protocol_ipv4 (Packet (msg_data msg))) as [ip|] eqn:Hh.
    2: { eexists _, _. split; [by apply answer_headerless|]. intros st' Heq.
         rewrite emit_nil. apply Teste3_facts.t3_handler_headerless; congruence. }
    rewrite H4.
    destruct (Teste3.is_high ip) eqn:H1; [|destruct (Teste3.is_low ip) eqn:H3].
    + eexists _, _. split; [apply (answer_queue _ _ _ 1 ip); auto|].
      intros st' Heq.
      rewrite (Teste3_facts.t3_handler_classified msg st' e ip) by congruence.
      by rewrite H1.
    + eexists _, _. split; [apply (answer_queue _ _ _ 2 ip); auto|].
      intros st' Heq.
      rewrite (Teste3_facts.t3_handler_classified msg st' e ip) by congruence.
      by rewrite H1, H3.
    + eexists _, _. split; [by apply answer_plain|].
      intros st' Heq.
      rewrite (Teste3_facts.t3_handler_classified msg st' e ip) by congruence.
      by rewrite H1, H3.
Qed.

Lemma t45_regular `{PacketLib} : regular Teste4_5._packet_in_handler.
Proof.
  split_and!.
  - apply Teste4_5_facts.t45_handler_malformed.
  - apply Teste4_5_facts.t45_handler_lldp.
  - intros msg st e He Hl.
    destruct (decide (out_port_of st msg e = OFPP_FLOOD)) as [Hout|Hout].
    + eexists _, _. split; [by apply answer_flood|]. intros st' Heq.
      apply Teste4_5_facts.t45_handler_flood; congruence.
    + eexists _, _. split; [by apply answer_plain|]. intros st' Heq.
      rewrite <- Heq. apply Teste4_5_facts.t45_handler_plain; congruence.
Qed.

(** ** The learning table as a function of the events *)

Lemma learn_lookup d m p t :
  learn d m p t !! d = Some (<[m := p]> (default ∅ (t !! d))).
Proof. unfold learn. by rewrite lookup_insert_eq. Qed.

Lemma learn_lookup_ne d d' m p t : d <> d' -> learn d m p t !! d' = t !! d'.
Proof. intros Hne. unfold learn. by rewrite lookup_insert_ne. Qed.

Lemma learn_idem d m p t : learn d m p (learn d m p t) = learn d m p t.
Proof.
  unfold learn at 1. rewrite learn_lookup. simpl.
  rewrite insert_insert_eq. unfold learn. by rewrite insert_insert_eq.
Qed.

Lemma learn_comm d1 m1 p1 d2 m2 p2 t :
  d1 <> d2 ->
  learn d1 m1 p1 (learn d2 m2 p2 t) = learn d2 m2 p2 (learn d1 m1 p1 t).
Proof.
  intros Hne. unfold learn at 1 3.
  rewrite !learn_lookup_ne by done.
  unfold learn. by rewrite insert_insert_ne.
Qed.

Lemma out_port_entry st msg e :
  out_port_of st msg e =
  default OFPP_FLOOD
    (entry (learn (msg_datapath msg) (src e) (msg_in_port msg) (mac_to_port st))
       (msg_datapath msg) (dst e)).
Proof. unfold out_port_of, entry. by rewrite learn_lookup. Qed.

Lemma out_port_learned st msg e ms :
  out_port_of (emit (learned st msg e) ms) msg e = out_port_of st msg e.
Proof. rewrite !out_port_entry. simpl. by rewrite learn_idem. Qed.

Section Regular.
Context `{PacketLib}.
Variable h : OFPPacketIn -> M unit.
Hypothesis h_regular : regular h.
Implicit Types (msg : OFPPacketIn) (st : app) (e : ethernet).

Lemma regular_cases msg st :
  (get_protocol_ethernet (Packet (msg_data msg)) = None /\
   h msg st = (Raised (AttributeError "ethertype"), st)) \/
  (exists e,
     get_protocol_ethernet (Packet (msg_data msg)) = Some e /\
     ethertype e = ETH_TYPE_LLDP /\
     h msg st = (Returned tt, st)) \/
  (exists e o ms,
     get_protocol_ethernet (Packet (msg_data msg)) = Some e /\
     ethertype e <> ETH_TYPE_LLDP /\
     answer msg e (out_port_of st msg e) o ms /\
     h msg st = (o, emit (learned st msg e) ms)).
Proof.
  destruct h_regular as (Hm & Hl & Ha).
  destruct (get_protocol_ethernet (Packet (msg_data msg))) as [e|] eqn:He.
  2: { left. eauto. }
  right. destruct (decide (ethertype e = ETH_TYPE_LLDP)) as [Hlldp|Hlldp].
  { left. exists e. eauto. }
  right. destruct (Ha msg st e He Hlldp) as (o & ms & Hans & Hrun).
  exists e, o, ms. split_and!; try done. by apply Hrun.
Qed.

Lemma regular_table msg st :
  mac_to_port (h msg st).2 = table_after (EventOFPPacketIn msg) (mac_to_port st).
Proof.
  unfold table_after.
  destruct (regular_cases msg st)
    as [(He & ->)|[(e & He & Hl & ->)|(e & o & ms & He & Hl & _ & ->)]];
    rewrite He; simpl; try done.
  - by rewrite bool_decide_eq_true_2.
  - by rewrite bool_decide_eq_false_2.
Qed.

Lemma regular_sent msg st :
  exists ms,
    sent (h msg st).2 = sent st ++ ms /\
    (ms = [] \/
     exists e o,
       get_protocol_ethernet (Packet (msg_data msg)) = Some e /\
       ethertype e <> ETH_TYPE_LLDP /\
       (h msg st).1 = o /\
       answer msg e (out_port_of st msg e) o ms).
Proof.
  destruct (regular_cases msg st)
    as [(He & ->)|[(e & He & Hl & ->)|(e & o & ms & He & Hl & Hans & ->)]]; simpl.
  - exists []. rewrite app_nil_r. auto.
  - exists []. rewrite app_nil_r. auto.
  - exists ms. split; [done|]. right. by exists e, o.
Qed.

Lemma regular_repeat msg st :
  mac_to_port (h msg (h msg st).2).2 = mac_to_port (h msg st).2 /\
  (h msg (h msg st).2).1 = (h msg st).1 /\
  exists ms,
    sent (h msg st).2 = sent st ++ ms /\
    sent (h msg (h msg st).2).2 = sent (h msg st).2 ++ ms.
Proof.
  destruct h_regular as (Hm & Hl & Ha).
  destruct (get_protocol_ethernet (Packet (msg_data msg))) as [e|] eqn:He.
  2: { rewrite !(Hm msg) by done. simpl. split_and!; try done.
       exists []. by rewrite app_nil_r. }
  destruct (decide (ethertype e = ETH_TYPE_LLDP)) as [Hlldp|Hlldp].
  { rewrite !(Hl msg _ e) by done. simpl. split_and!; try done.
    exists []. by rewrite app_nil_r. }
  destruct (Ha msg st e He Hlldp) as (o & ms & Hans & Hrun).
  rewrite (Hrun st) by done. cbn [fst snd].
  rewrite (Hrun (emit (learned st msg e) ms)) by apply out_port_learned.
  simpl. split_and!; try done.
  - apply learn_idem.
  - by exists ms.
Qed.

End Regular.

Lemma table_after_comm `{PacketLib} ev1 ev2 t :
  event_datapath ev1 <> event_datapath ev2 ->
  table_after ev1 (table_after ev2 t) = table_after ev2 (table_after ev1 t).
Proof.
  intros Hne. destruct ev1 as [d1|msg1], ev2 as [d2|msg2]; simpl in *; try done.
  destruct (get_protocol_ethernet (Packet (msg_data msg1))) as [e1|]; [|done].
  destruct (get_protocol_ethernet (Packet (msg_data msg2))) as [e2|]; [|done].
  repeat case_bool_decide; try done. by apply learn_comm.
Qed.

Lemma table_after_entry `{PacketLib} ev t d mac :
  entry (table_after ev t) d mac = entry t d mac \/
  exists msg e,
    ev = EventOFPPacketIn msg /\
    get_protocol_ethernet (Packet (msg_data msg)) = Some e /\
    ethertype e <> ETH_TYPE_LLDP /\
    d = msg_datapath msg /\ mac = src e /\
    entry (table_after ev t) d mac = Some (msg_in_port msg).
Proof.
  destruct ev as [dp|msg]; simpl; [by left|].
  destruct (get_protocol_ethernet (Packet (msg_data msg))) as [e|] eqn:He; [|by left].
  case_bool_decide as Hl; [by left|].
  rewrite entry_learn. case_bool_decide as Hdm; [|by left].
  destruct Hdm as [<- <-]. right. by exists msg, e.
Qed.

Lemma table_after_nonempty `{PacketLib} ev t :
  (forall d m, t !! d = Some m -> m <> ∅) ->
  forall d m, table_after ev t !! d = Some m -> m <> ∅.
Proof.
  intros Hinv d m. destruct ev as [dp|msg]; simpl; [apply Hinv|].
  destruct (get_protocol_ethernet (Packet (msg_data msg))) as [e|]; [|apply Hinv].
  case_bool_decide; [apply Hinv|].
  destruct (decide (msg_datapath msg = d)) as [<-|Hne].
  - rewrite learn_lookup. intros [= <-]. apply insert_non_empty.
  - rewrite learn_lookup_ne by done. apply Hinv.
Qed.

Section Tables.
Context `{PacketLib}.
Variable sf : Z -> M unit.
Variable h : OFPPacketIn -> M unit.
Hypothesis sf_table : forall datapath st, mac_to_port (sf datapath st).2 = mac_to_port st.
Hypothesis h_regular : regular h.

Lemma step_table_after st ev :
  mac_to_port (step sf h st ev) = table_after ev (mac_to_port st).
Proof.
  destruct ev as [dp|msg]; unfold step, dispatch.
  - apply sf_table.
  - by apply regular_table.
Qed.

Lemma run_table_after evs st :
  mac_to_port (run sf h evs st) =
  fold_left (fun t ev => table_after ev t) evs (mac_to_port st).
Proof.
  revert st. induction evs as [|ev evs IH]; intros st; [done|].
  simpl. rewrite IH. by rewrite step_table_after.
Qed.

Lemma run_nonempty evs d m :
  mac_to_port (run sf h evs init) !! d = Some m -> m <> ∅.
Proof.
  rewrite run_table_after. simpl.
  assert (Hgen : forall t,
             (forall d m, t !! d = Some m -> m <> ∅) ->
             forall d m,
               fold_left (fun t ev => table_after ev t) evs t !! d = Some m ->
               m <> ∅).
  { induction evs as [|ev evs IH]; intros t Ht; [done|].
    simpl. apply IH. by apply table_after_nonempty. }
  apply Hgen. intros d' m'. by rewrite lookup_empty.
Qed.

End Tables.

Lemma t2_features_table datapath st :
  mac_to_port (Teste2.switch_features_handler datapath st).2 = mac_to_port st.
Proof. reflexivity. Qed.

Lemma t3_features_table datapath st :
  mac_to_port (Teste3.switch_features_handler datapath st).2 = mac_to_port st.
Proof. reflexivity. Qed.

Lemma t45_features_table datapath st :
  mac_to_port (Teste4_5.switch_features_handler datapath st).2 = mac_to_port st.
Proof. reflexivity. Qed.

(** ** The learning table *)

(** X1.  After any sequence of events the three controllers hold the same
    learning table: the one obtained by recording, in order, the source of
    every packet-in whose frame is decoded and is not LLDP.  Neither the
    queue classification, nor an exception raised after the recording, nor
    a switch-features event has any influence on it. *)
Theorem controllers_learn_alike `{PacketLib} evs :
  let table := fold_left (fun t ev => table_after ev t) evs ∅ in
  mac_to_port (run Teste2.switch_features_handler Teste2._packet_in_handler evs init)
  = table /\
  mac_to_port (run Teste3.switch_features_handler Teste3._packet_in_handler evs init)
  = table /\
  mac_to_port (run Teste4_5.switch_features_handler Teste4_5._packet_in_handler evs init)
  = table.
Proof.
  intros table. subst table. split_and!.
  - apply (run_table_after _ _ t2_features_table t2_regular).
  - apply (run_table_after _ _ t3_features_table t3_regular).
  - apply (run_table_after _ _ t45_features_table t45_regular).
Qed.

(** X2.  Two events that come from different switches can be handled in
    either order: the learning table that results is the same.  This
    holds for the three controllers. *)
Theorem switches_do_not_interfere `{PacketLib} st ev1 ev2 :
  event_datapath ev1 <> event_datapath ev2 ->
  let commute (sf : Z -> M unit) (h : OFPPacketIn -> M unit) :=
    mac_to_port (step sf h (step sf h st ev1) ev2)
    = mac_to_port (step sf h (step sf h st ev2) ev1) in
  commute Teste2.switch_features_handler Teste2._packet_in_handler /\
  commute Teste3.switch_features_handler Teste3._packet_in_handler /\
  commute Teste4_5.switch_features_handler Teste4_5._packet_in_handler.
Proof.
  intros Hne commute. subst commute. cbv beta.
  assert (Hgen : forall sf h,
             (forall dp st, mac_to_port (sf dp st).2 = mac_to_port st) ->
             regular h ->
             mac_to_port (step sf h (step sf h st ev1) ev2)
             = mac_to_port (step sf h (step sf h st ev2) ev1)).
  { intros sf h Hsf Hh. rewrite !(step_table_after sf h Hsf Hh).
    symmetry. by apply table_after_comm. }
  split_and!; apply Hgen; try done.
  - apply t2_regular.
  - apply t3_regular.
  - apply t45_regular.
Qed.

Lemma switches_do_not_interfere_witness :
  mac_to_port
    (step Teste2.switch_features_handler
       (@Teste2._packet_in_handler (decode_as frame_arp_h1))
       (step Teste2.switch_features_handler
          (@Teste2._packet_in_handler (decode_as frame_arp_h1))
          init (EventOFPPacketIn msg_s1_p3))
       (EventOFPPacketIn msg_s2_p1))
  = mac_to_port
    (step Teste2.switch_features_handler
       (@Teste2._packet_in_handler (decode_as frame_arp_h1))
       (step Teste2.switch_features_handler
          (@Teste2._packet_in_handler (decode_as frame_arp_h1))
          init (EventOFPPacketIn msg_s2_p1))
       (EventOFPPacketIn msg_s1_p3)).
Proof.
  refine (proj1 (@switches_do_not_interfere (decode_as frame_arp_h1) init
                   (EventOFPPacketIn msg_s1_p3) (EventOFPPacketIn msg_s2_p1) _)).
  vm_compute. discriminate.
Defined.

(** X3.  A packet-in whose frame is decoded and is not LLDP leaves the
    source address recorded on the ingress port, whatever was recorded
    for it before, whether or not the switch was known, and even when the
    handler raises afterwards.  This holds for the three controllers. *)
Theorem learning_records_source `{PacketLib} msg st e :
  get_protocol_ethernet (Packet (msg_data msg)) = Some e ->
  ethertype e <> ETH_TYPE_LLDP ->
  let recorded (h : OFPPacketIn -> M unit) :=
    entry (mac_to_port (h msg st).2) (msg_datapath msg) (src e)
    = Some (msg_in_port msg) in
  recorded Teste2._packet_in_handler /\
  recorded Teste3._packet_in_handler /\
  recorded Teste4_5._packet_in_handler.
Proof.
  intros He Hl recorded. subst recorded. cbv beta.
  assert (Hgen : forall h, regular h ->
             entry (mac_to_port (h msg st).2) (msg_datapath msg) (src e)
             = Some (msg_in_port msg)).
  { intros h Hh. rewrite (regular_table h Hh). simpl. rewrite He.
    rewrite bool_decide_eq_false_2 by done.
    rewrite entry_learn. by rewrite bool_decide_eq_true_2. }
  split_and!; apply Hgen.
  - apply t2_regular.
  - apply t3_regular.
  - apply t45_regular.
Qed.

Lemma learning_records_source_witness :
  entry
    (mac_to_port
       (@Teste2._packet_in_handler (decode_as frame_ip_headerless)
          msg_s1_p1 app_knows_h4).2)
    1 mac_h1 = Some 1 /\
  (@Teste2._packet_in_handler (decode_as frame_ip_headerless)
     msg_s1_p1 app_knows_h4).1 = Raised (AttributeError "src").
Proof.
  split.
  - refine (proj1 (@learning_records_source (decode_as frame_ip_headerless)
                     msg_s1_p1 app_knows_h4
                     (Ethernet mac_h4 mac_h1 ETH_TYPE_IP) _ _)).
    + reflexivity.
    + vm_compute. discriminate.
  - vm_compute. reflexivity.
Defined.

(** X4.  An event changes at most one entry of the learning table: if the
    port recorded for an address on a switch is not the same after the
    event as before, the event is a packet-in from that switch whose frame
    is decoded, is not LLDP and has that address as its source.  Entries
    of other switches and of other addresses are left as they are.  This
    holds for the three controllers. *)
Theorem learning_is_local `{PacketLib} st ev dpid mac :
  let local (sf : Z -> M unit) (h : OFPPacketIn -> M unit) :=
    entry (mac_to_port (step sf h st ev)) dpid mac <> entry (mac_to_port st) dpid mac ->
    exists msg e,
      ev = EventOFPPacketIn msg /\
      get_protocol_ethernet (Packet (msg_data msg)) = Some e /\
      ethertype e <> ETH_TYPE_LLDP /\
      dpid = msg_datapath msg /\
      mac = src e /\
      entry (mac_to_port (step sf h st ev)) dpid mac = Some (msg_in_port msg) in
  local Teste2.switch_features_handler Teste2._packet_in_handler /\
  local Teste3.switch_features_handler Teste3._packet_in_handler /\
  local Teste4_5.switch_features_handler Teste4_5._packet_in_handler.
Proof.
  intros local. subst local. cbv beta.
  assert (Hgen : forall sf h,
             (forall dp st, mac_to_port (sf dp st).2 = mac_to_port st) ->
             regular h ->
             entry (mac_to_port (step sf h st ev)) dpid mac
             <> entry (mac_to_port st) dpid mac ->
             exists msg e,
               ev = EventOFPPacketIn msg /\
               get_protocol_ethernet (Packet (msg_data msg)) = Some e /\
               ethertype e <> ETH_TYPE_LLDP /\
               dpid = msg_datapath msg /\
               mac = src e /\
               entry (mac_to_port (step sf h st ev)) dpid mac
               = Some (msg_in_port msg)).
  { intros sf h Hsf Hh. rewrite (step_table_after sf h Hsf Hh).
    intros Hchg.
    destruct (table_after_entry ev (mac_to_port st) dpid mac)
      as [Hsame|(msg & e & Hrest)]; [done|].
    by exists msg, e. }
  split_and!; apply Hgen; try done.
  - apply t2_regular.
  - apply t3_regular.
  - apply t45_regular.
Qed.

Lemma learning_is_local_witness :
  exists msg e,
    EventOFPPacketIn msg_s1_p3 = EventOFPPacketIn msg /\
    get_protocol_ethernet (@Packet (decode_as frame_arp_h1) (msg_data msg)) = Some e /\
    ethertype e <> ETH_TYPE_LLDP /\
    1 = msg_datapath msg /\
    mac_h1 = src e /\
    entry
      (mac_to_port
         (step Teste2.switch_features_handler
            (@Teste2._packet_in_handler (decode_as frame_arp_h1))
            init (EventOFPPacketIn msg_s1_p3)))
      1 mac_h1 = Some (msg_in_port msg).
Proof.
  refine (proj1 (@learning_is_local (decode_as frame_arp_h1) init
                   (EventOFPPacketIn msg_s1_p3) 1 mac_h1) _).
  vm_compute. discriminate.
Defined.

(** X5.  In every state reached from a new application, a switch that has
    a table has at least one address in it: the table created for a switch
    at line 68 is never left empty.  This holds for the three
    controllers. *)
Theorem no_empty_switch_table `{PacketLib} evs dpid (t : gmap string Z) :
  let inhabited (sf : Z -> M unit) (h : OFPPacketIn -> M unit) :=
    mac_to_port (run sf h evs init) !! dpid = Some t -> t <> ∅ in
  inhabited Teste2.switch_features_handler Teste2._packet_in_handler /\
  inhabited Teste3.switch_features_handler Teste3._packet_in_handler /\
  inhabited Teste4_5.switch_features_handler Teste4_5._packet_in_handler.
Proof.
  intros inhabited. subst inhabited. cbv beta. split_and!.
  - apply (run_nonempty _ _ t2_features_table t2_regular).
  - apply (run_nonempty _ _ t3_features_table t3_regular).
  - apply (run_nonempty _ _ t45_features_table t45_regular).
Qed.

Lemma no_empty_switch_table_witness :
  ({[ mac_h1 := 3 ]} : gmap string Z) <> ∅.
Proof.
  refine (proj1 (@no_empty_switch_table (decode_as frame_arp_h1)
                   [EventOFPPacketIn msg_s1_p3] 1 {[ mac_h1 := 3 ]}) _).
  vm_compute. reflexivity.
Defined.

(** X6.  Handling the same packet-in a second time changes nothing in the
    learning table, ends the same way and sends once more the messages
    sent the first time.  This holds for the three controllers. *)
Theorem repeated_packet_in `{PacketLib} msg st :
  let repeats (h : OFPPacketIn -> M unit) :=
    mac_to_port (h msg (h msg st).2).2 = mac_to_port (h msg st).2 /\
    (h msg (h msg st).2).1 = (h msg st).1 /\
    exists ms,
      sent (h msg st).2 = sent st ++ ms /\
      sent (h msg (h msg st).2).2 = sent (h msg st).2 ++ ms in
  repeats Teste2._packet_in_handler /\
  repeats Teste3._packet_in_handler /\
  repeats Teste4_5._packet_in_handler.
Proof.
  intros repeats. subst repeats. cbv beta. split; [|split].
  - apply (regular_repeat _ t2_regular).
  - apply (regular_repeat _ t3_regular).
  - apply (regular_repeat _ t45_regular).
Qed.

(** ** The messages sent *)

Lemma answer_shape `{PacketLib} msg e out_port o ms :
  answer msg e out_port o ms ->
  (ms = [] /\ o = Raised (AttributeError "src")) \/
  (ms = [packet_out_of msg [OFPActionOutput1 OFPP_FLOOD]] /\
   o = Returned tt /\ out_port = OFPP_FLOOD) \/
  (exists mtch actions,
     ms = [flow_mod_of msg mtch actions; packet_out_of msg actions] /\
     o = Returned tt /\ out_port <> OFPP_FLOOD /\
     (actions = [OFPActionOutput1 out_port] \/
      exists q, (q = 1 \/ q = 2) /\ msg_datapath msg = 1 /\ out_port = 4 /\
                actions = [OFPActionSetQueue q; OFPActionOutput1 4])).
Proof.
  destruct 1 as [Hf|Hp|q ip H4 Hd Hip Hh Hq|H4 Hd Hip Hh].
  - right. left. done.
  - right. right. eexists _, _. split_and!; try done. by left.
  - right. right. eexists _, _. split_and!; try done.
    + by rewrite H4.
    + right. by exists q.
  - by left.
Qed.

Section RegularMessages.
Context `{PacketLib}.
Variable h : OFPPacketIn -> M unit.
Hypothesis h_regular : regular h.
Implicit Types (msg : OFPPacketIn) (st : app) (e : ethernet).

Lemma regular_messages msg st :
  exists ms,
    sent (h msg st).2 = sent st ++ ms /\
    (ms = [] \/
     ms = [packet_out_of msg [OFPActionOutput1 OFPP_FLOOD]] \/
     exists mtch actions,
       ms = [flow_mod_of msg mtch actions; packet_out_of msg actions] /\
       (h msg st).1 = Returned tt /\
       ((exists p, actions = [OFPActionOutput1 p]) \/
        exists q, (q = 1 \/ q = 2) /\ msg_datapath msg = 1 /\
                  actions = [OFPActionSetQueue q; OFPActionOutput1 4])).
Proof.
  destruct (regular_sent h h_regular msg st) as (ms & Hs & Hms).
  exists ms. split; [done|].
  destruct Hms as [->|(e & o & He & Hl & Ho & Hans)]; [by left|].
  destruct (answer_shape _ _ _ _ _ Hans)
    as [(-> & _)|[(-> & _)|(m & a & -> & -> & _ & Ha)]]; [by left|by right; left|].
  right. right. exists m, a. split_and!; try done.
  destruct Ha as [->|(q & Hq & Hd & _ & ->)]; [left; eauto|right; eauto].
Qed.

End RegularMessages.

Lemma t45_returns `{PacketLib} msg st e :
  get_protocol_ethernet (Packet (msg_data msg)) = Some e ->
  exists p,
    (Teste4_5._packet_in_handler msg st = (Returned tt, st) /\
     ethertype e = ETH_TYPE_LLDP) \/
    Teste4_5._packet_in_handler msg st =
      (Returned tt,
       emit (learned st msg e) [packet_out_of msg [OFPActionOutput1 p]]) \/
    Teste4_5._packet_in_handler msg st =
      (Returned tt,
       emit (learned st msg e)
         [flow_mod_of msg (OFPMatch_l2 (msg_in_port msg) (dst e)) [OFPActionOutput1 p];
          packet_out_of msg [OFPActionOutput1 p]]).
Proof.
  intros He. exists (out_port_of st msg e).
  destruct (decide (ethertype e = ETH_TYPE_LLDP)) as [Hl|Hl].
  { left. split; [|done]. by apply (Teste4_5_facts.t45_handler_lldp msg st e). }
  right.
  destruct (decide (out_port_of st msg e = OFPP_FLOOD)) as [Hout|Hout].
  - left. rewrite Hout. by apply Teste4_5_facts.t45_handler_flood.
  - right. by apply Teste4_5_facts.t45_handler_plain.
Qed.

(** X7.  Learn, then deliver.  When a packet-in has recorded a host on a
    port that is not the flood port, a later packet-in from the same
    switch, sent by another host to that host, resolves to that port: the
    handler, if it returns, sends a flow-mod and a packet-out whose last
    action is the output to the recorded port.  This holds for the three
    controllers. *)
Theorem learn_then_deliver `{PacketLib} msg1 msg2 st e1 e2 :
  get_protocol_ethernet (Packet (msg_data msg1)) = Some e1 ->
  ethertype e1 <> ETH_TYPE_LLDP ->
  get_protocol_ethernet (Packet (msg_data msg2)) = Some e2 ->
  ethertype e2 <> ETH_TYPE_LLDP ->
  msg_datapath msg2 = msg_datapath msg1 ->
  dst e2 = src e1 ->
  src e2 <> src e1 ->
  msg_in_port msg1 <> OFPP_FLOOD ->
  let delivers (sf : Z -> M unit) (h : OFPPacketIn -> M unit) :=
    let st1 := step sf h st (EventOFPPacketIn msg1) in
    out_port_of st1 msg2 e2 = msg_in_port msg1 /\
    ((h msg2 st1).1 = Returned tt ->
     exists mtch actions,
       sent (h msg2 st1).2 =
         sent st1 ++ [flow_mod_of msg2 mtch actions; packet_out_of msg2 actions] /\
       last actions = Some (OFPActionOutput1 (msg_in_port msg1))) in
  delivers Teste2.switch_features_handler Teste2._packet_in_handler /\
  delivers Teste3.switch_features_handler Teste3._packet_in_handler /\
  delivers Teste4_5.switch_features_handler Teste4_5._packet_in_handler.
Proof.
  intros He1 Hl1 He2 Hl2 Hd Hdst Hsrc Hp delivers. subst delivers. cbv beta zeta.
  assert (Hgen : forall sf h,
             (forall dp st, mac_to_port (sf dp st).2 = mac_to_port st) ->
             regular h ->
             out_port_of (step sf h st (EventOFPPacketIn msg1)) msg2 e2
             = msg_in_port msg1 /\
             ((h msg2 (step sf h st (EventOFPPacketIn msg1))).1 = Returned tt ->
              exists mtch actions,
                sent (h msg2 (step sf h st (EventOFPPacketIn msg1))).2 =
                  sent (step sf h st (EventOFPPacketIn msg1))
                  ++ [flow_mod_of msg2 mtch actions; packet_out_of msg2 actions] /\
                last actions = Some (OFPActionOutput1 (msg_in_port msg1)))).
  { intros sf h Hsf Hh.
    set (st1 := step sf h st (EventOFPPacketIn msg1)).
    assert (Hout : out_port_of st1 msg2 e2 = msg_in_port msg1).
    { rewrite out_port_entry. unfold st1.
      rewrite (step_table_after sf h Hsf Hh). simpl. rewrite He1.
      rewrite bool_decide_eq_false_2 by done.
      rewrite Hd, Hdst. rewrite entry_learn.
      rewrite bool_decide_eq_false_2 by (intros [_ ?]; done).
      rewrite entry_learn. by rewrite bool_decide_eq_true_2. }
    split; [done|]. intros Hret.
    destruct Hh as (_ & _ & Ha).
    destruct (Ha msg2 st1 e2 He2 Hl2) as (o & ms & Hans & Hrun).
    rewrite (Hrun st1 eq_refl) in Hret |- *. simpl in Hret |- *. subst o.
    rewrite Hout in Hans.
    destruct (answer_shape _ _ _ _ _ Hans)
      as [(_ & Hx)|[(_ & _ & Hx)|(m & a & -> & _ & _ & Hact)]]; try done.
    exists m, a. split; [done|].
    destruct Hact as [->|(q & _ & _ & H4 & ->)]; [done|]. by rewrite H4. }
  split; [|split].
  - apply Hgen; [done|apply t2_regular].
  - apply Hgen; [done|apply t3_regular].
  - apply Hgen; [done|apply t45_regular].
Qed.

Lemma learn_then_deliver_witness :
  out_port_of
    (step Teste4_5.switch_features_handler
       (@Teste4_5._packet_in_handler decode_two) init (EventOFPPacketIn msg_s1_p1))
    msg_s1_p4 (Ethernet mac_h1 mac_h4 0x0806) = 1.
Proof.
  refine (proj1 (proj2 (proj2 (@learn_then_deliver decode_two msg_s1_p1 msg_s1_p4 init
            (Ethernet "ff:ff:ff:ff:ff:ff" mac_h1 0x0806)
            (Ethernet mac_h1 mac_h4 0x0806) _ _ _ _ _ _ _ _)))).
  - reflexivity.
  - vm_compute. discriminate.
  - reflexivity.
  - vm_compute. discriminate.
  - reflexivity.
  - reflexivity.
  - vm_compute. discriminate.
  - vm_compute. discriminate.
Defined.

(** X8.  The messages an event makes a controller send are at most two,
    they are added after the messages sent before, and each of them is
    addressed to the switch the event came from.  This holds for the three
    controllers. *)
Theorem messages_go_to_event_switch `{PacketLib} st ev :
  let addressed (sf : Z -> M unit) (h : OFPPacketIn -> M unit) :=
    exists ms,
      sent (step sf h st ev) = sent st ++ ms /\
      (length ms <= 2)%nat /\
      forall m, In m ms -> datapath_of m = event_datapath ev in
  addressed Teste2.switch_features_handler Teste2._packet_in_handler /\
  addressed Teste3.switch_features_handler Teste3._packet_in_handler /\
  addressed Teste4_5.switch_features_handler Teste4_5._packet_in_handler.
Proof.
  intros addressed. subst addressed. cbv beta.
  assert (Hgen : forall sf h,
             (forall dp st, exists m,
                 sent (sf dp st).2 = sent st ++ [m] /\ datapath_of m = dp) ->
             regular h ->
             exists ms,
               sent (step sf h st ev) = sent st ++ ms /\
               (length ms <= 2)%nat /\
               forall m, In m ms -> datapath_of m = event_datapath ev).
  { intros sf h Hsf Hh. destruct ev as [dp|msg]; unfold step, dispatch.
    - destruct (Hsf dp st) as (m & Hs & Hm). exists [m]. split_and!; [done|simpl; lia|].
      intros m' [<-|[]]. done.
    - destruct (regular_messages h Hh msg st) as (ms & Hs & Hms).
      exists ms. split; [done|].
      destruct Hms as [->|[->|(mt & a & -> & _)]]; simpl; (split; [lia|]).
      + intros m [].
      + intros m [<-|[]]. done.
      + intros m [<-|[<-|[]]]; done. }
  split; [|split]; apply Hgen.
  - intros dp st'. eexists. rewrite Teste2_facts.t2_features_sent. done.
  - apply t2_regular.
  - intros dp st'. eexists. rewrite Teste3_facts.t3_features_sent. done.
  - apply t3_regular.
  - intros dp st'. eexists. rewrite Teste4_5_facts.t45_features_sent. done.
  - apply t45_regular.
Qed.

(** X9.  The flood port doubles as the mark of an unknown destination: a
    destination that is recorded, but on the flood port, is handled as if
    it were unknown.  The packet is flooded and no rule is installed.
    This holds for the three controllers. *)
Theorem recorded_on_flood_port_is_flooded `{PacketLib} msg st e :
  get_protocol_ethernet (Packet (msg_data msg)) = Some e ->
  ethertype e <> ETH_TYPE_LLDP ->
  entry (learn (msg_datapath msg) (src e) (msg_in_port msg) (mac_to_port st))
    (msg_datapath msg) (dst e) = Some OFPP_FLOOD ->
  let flooded :=
    (Returned tt,
     emit (learned st msg e)
       [MsgPacketOut
          (PacketOut (msg_datapath msg) (msg_buffer_id msg) (msg_in_port msg)
             [OFPActionOutput OFPP_FLOOD OFPCML_MAX]
             (if bool_decide (msg_buffer_id msg = OFP_NO_BUFFER)
              then Some (msg_data msg) else None))]) in
  Teste2._packet_in_handler msg st = flooded /\
  Teste3._packet_in_handler msg st = flooded /\
  Teste4_5._packet_in_handler msg st = flooded.
Proof.
  intros He Hl Hrec flooded. subst flooded.
  assert (Hout : out_port_of st msg e = OFPP_FLOOD).
  { rewrite out_port_entry. by rewrite Hrec. }
  split_and!.
  - by apply Teste2_facts.t2_handler_flood.
  - by apply Teste3_facts.t3_handler_flood.
  - by apply Teste4_5_facts.t45_handler_flood.
Qed.

Lemma recorded_on_flood_port_is_flooded_witness :
  @Teste2._packet_in_handler (decode_as frame_h1_h4) msg_s1_p1 app_h4_on_flood_port =
  (Returned tt,
   emit (learned app_h4_on_flood_port msg_s1_p1 (Ethernet mac_h4 mac_h1 ETH_TYPE_IP))
     [MsgPacketOut
        (PacketOut 1 OFP_NO_BUFFER 1 [OFPActionOutput OFPP_FLOOD OFPCML_MAX]
           (Some []))]).
Proof.
  refine (proj1 (@recorded_on_flood_port_is_flooded (decode_as frame_h1_h4)
                   msg_s1_p1 app_h4_on_flood_port
                   (Ethernet mac_h4 mac_h1 ETH_TYPE_IP) _ _ _)).
  - reflexivity.
  - vm_compute. discriminate.
  - vm_compute. reflexivity.
Defined.

(** X10.  A packet-out sent by a packet-in handler names the buffer and
    the ingress port of the packet-in, and it carries the frame itself
    exactly when the packet-in says the switch did not buffer it: with
    [OFP_NO_BUFFER] the data is the frame received, with any other buffer
    reference there is no data.  This holds for the three controllers. *)
Theorem packet_out_resends_unbuffered_frame `{PacketLib} msg st :
  let faithful (h : OFPPacketIn -> M unit) :=
    exists ms,
      sent (h msg st).2 = sent st ++ ms /\
      forall po, In (MsgPacketOut po) ms ->
        po_buffer_id po = msg_buffer_id msg /\
        po_in_port po = msg_in_port msg /\
        (msg_buffer_id msg = OFP_NO_BUFFER -> po_data po = Some (msg_data msg)) /\
        (msg_buffer_id msg <> OFP_NO_BUFFER -> po_data po = None) in
  faithful Teste2._packet_in_handler /\
  faithful Teste3._packet_in_handler /\
  faithful Teste4_5._packet_in_handler.
Proof.
  intros faithful. subst faithful. cbv beta.
  assert (Hpo : forall a po,
             MsgPacketOut po = packet_out_of msg a ->
             po_buffer_id po = msg_buffer_id msg /\
             po_in_port po = msg_in_port msg /\
             (msg_buffer_id msg = OFP_NO_BUFFER -> po_data po = Some (msg_data msg)) /\
             (msg_buffer_id msg <> OFP_NO_BUFFER -> po_data po = None)).
  { intros a po [= ->]. simpl. split_and!; try done.
    - intros Hb. by rewrite bool_decide_eq_true_2.
    - intros Hb. by rewrite bool_decide_eq_false_2. }
  assert (Hgen : forall h, regular h ->
             exists ms,
               sent (h msg st).2 = sent st ++ ms /\
               forall po, In (MsgPacketOut po) ms ->
                 po_buffer_id po = msg_buffer_id msg /\
                 po_in_port po = msg_in_port msg /\
                 (msg_buffer_id msg = OFP_NO_BUFFER ->
                  po_data po = Some (msg_data msg)) /\
                 (msg_buffer_id msg <> OFP_NO_BUFFER -> po_data po = None)).
  { intros h Hh. destruct (regular_messages h Hh msg st) as (ms & Hs & Hms).
    exists ms. split; [done|]. intros po Hin.
    destruct Hms as [->|[->|(mt & a & -> & _)]].
    - destruct Hin.
    - destruct Hin as [Hin|[]]. by apply (Hpo _ _ (eq_sym Hin)).
    - destruct Hin as [Hin|[Hin|[]]]; [discriminate Hin|].
      by apply (Hpo _ _ (eq_sym Hin)). }
  split; [|split]; apply Hgen.
  - apply t2_regular.
  - apply t3_regular.
  - apply t45_regular.
Qed.

Lemma packet_out_resends_unbuffered_frame_witness :
  exists ms,
    sent (@Teste2._packet_in_handler (decode_as frame_arp_h1) msg_s1_p1 init).2
    = sent init ++ ms /\
    forall po, In (MsgPacketOut po) ms ->
      po_buffer_id po = msg_buffer_id msg_s1_p1 /\
      po_in_port po = msg_in_port msg_s1_p1 /\
      (msg_buffer_id msg_s1_p1 = OFP_NO_BUFFER ->
       po_data po = Some (msg_data msg_s1_p1)) /\
      (msg_buffer_id msg_s1_p1 <> OFP_NO_BUFFER -> po_data po = None).
Proof.
  exact (proj1 (@packet_out_resends_unbuffered_frame (decode_as frame_arp_h1)
                  msg_s1_p1 init)).
Defined.

(** X11.  When a packet-in handler sends a flow-mod and a packet-out, both
    name the buffer of the packet-in, except for buffer 0: then the
    flow-mod carries [OFP_NO_BUFFER] while the packet-out still names
    buffer 0.  This holds for the three controllers. *)
Theorem rule_and_send_name_the_same_buffer `{PacketLib} msg st :
  let buffers (h : OFPPacketIn -> M unit) :=
    exists ms,
      sent (h msg st).2 = sent st ++ ms /\
      forall fm po, In (MsgFlowMod fm) ms -> In (MsgPacketOut po) ms ->
        (msg_buffer_id msg <> 0 ->
         fm_buffer_id fm = msg_buffer_id msg /\ po_buffer_id po = msg_buffer_id msg) /\
        (msg_buffer_id msg = 0 ->
         fm_buffer_id fm = OFP_NO_BUFFER /\ po_buffer_id po = 0) in
  buffers Teste2._packet_in_handler /\
  buffers Teste3._packet_in_handler /\
  buffers Teste4_5._packet_in_handler.
Proof.
  intros buffers. subst buffers. cbv beta.
  assert (Hgen : forall h, regular h ->
             exists ms,
               sent (h msg st).2 = sent st ++ ms /\
               forall fm po, In (MsgFlowMod fm) ms -> In (MsgPacketOut po) ms ->
                 (msg_buffer_id msg <> 0 ->
                  fm_buffer_id fm = msg_buffer_id msg /\
                  po_buffer_id po = msg_buffer_id msg) /\
                 (msg_buffer_id msg = 0 ->
                  fm_buffer_id fm = OFP_NO_BUFFER /\ po_buffer_id po = 0)).
  { intros h Hh. destruct (regular_messages h Hh msg st) as (ms & Hs & Hms).
    exists ms. split; [done|]. intros fm po Hfm Hpo.
    destruct Hms as [->|[->|(mt & a & -> & _)]].
    - destruct Hfm.
    - destruct Hfm as [Hfm|[]]. discriminate Hfm.
    - destruct Hfm as [Hfm|[Hfm|[]]]; [|discriminate Hfm].
      destruct Hpo as [Hpo|[Hpo|[]]]; [discriminate Hpo|].
      unfold flow_mod_of in Hfm. unfold packet_out_of in Hpo.
      injection Hfm as <-. injection Hpo as <-. simpl. split.
      + intros Hb. unfold py_or. by rewrite bool_decide_eq_false_2.
      + intros Hb. unfold py_or. by rewrite bool_decide_eq_true_2. }
  split; [|split]; apply Hgen.
  - apply t2_regular.
  - apply t3_regular.
  - apply t45_regular.
Qed.

Lemma rule_and_send_name_the_same_buffer_witness :
  exists ms,
    sent (@Teste2._packet_in_handler (decode_as frame_h1_h4) msg_s1_buf0 app_knows_h4).2
    = sent app_knows_h4 ++ ms /\
    forall fm po, In (MsgFlowMod fm) ms -> In (MsgPacketOut po) ms ->
      (msg_buffer_id msg_s1_buf0 <> 0 ->
       fm_buffer_id fm = msg_buffer_id msg_s1_buf0 /\
       po_buffer_id po = msg_buffer_id msg_s1_buf0) /\
      (msg_buffer_id msg_s1_buf0 = 0 ->
       fm_buffer_id fm = OFP_NO_BUFFER /\ po_buffer_id po = 0).
Proof.
  exact (proj1 (@rule_and_send_name_the_same_buffer (decode_as frame_h1_h4)
                  msg_s1_buf0 app_knows_h4)).
Defined.

(** X12.  A frame with the IPv4 ether-type behind which no IPv4 header
    is decoded, and whose destination resolves to a known port.  From
    switch 1 towards port 4, the two classifying controllers read [ip.src]
    and raise [AttributeError]: the source has been recorded and nothing is
    sent.  Anywhere else they fetch the header without reading it and
    forward the packet with a plain rule, and the controller without
    classification forwards it in every case. *)
Theorem missing_ipv4_header `{PacketLib} msg st e :
  get_protocol_ethernet (Packet (msg_data msg)) = Some e ->
  ethertype e = ETH_TYPE_IP ->
  get_protocol_ipv4 (Packet (msg_data msg)) = None ->
  out_port_of st msg e <> OFPP_FLOOD ->
  let forwarded :=
    (Returned tt,
     emit (learned st msg e)
       [flow_mod_of msg (OFPMatch_l2 (msg_in_port msg) (dst e))
          [OFPActionOutput1 (out_port_of st msg e)];
        packet_out_of msg [OFPActionOutput1 (out_port_of st msg e)]]) in
  let aborted := (Raised (AttributeError "src"), learned st msg e) in
  let classified := msg_datapath msg = 1 /\ out_port_of st msg e = 4 in
  let classifying (h : OFPPacketIn -> M unit) :=
    (classified -> h msg st = aborted) /\
    (~ classified -> h msg st = forwarded) in
  classifying Teste2._packet_in_handler /\
  classifying Teste3._packet_in_handler /\
  Teste4_5._packet_in_handler msg st = forwarded.
Proof.
  intros He Hip Hh Hout forwarded aborted classified classifying.
  subst forwarded aborted classified classifying. cbv beta.
  pose proof (ip_not_lldp e Hip) as Hl.
  split; [|split]; [split|split|].
  - intros [Hd H4]. by apply Teste2_facts.t2_handler_headerless.
  - intros Hoff. apply Teste2_facts.t2_handler_plain; try done.
    intros (_ & Hd & H4). by apply Hoff.
  - intros [Hd H4]. by apply Teste3_facts.t3_handler_headerless.
  - intros Hoff. apply Teste3_facts.t3_handler_plain; try done.
    intros (_ & Hd & H4). by apply Hoff.
  - by apply Teste4_5_facts.t45_handler_plain.
Qed.

Lemma missing_ipv4_header_witness :
  @Teste2._packet_in_handler (decode_as frame_ip_headerless) msg_s1_p1 app_knows_h4
  = (Raised (AttributeError "src"),
     learned app_knows_h4 msg_s1_p1 (Ethernet mac_h4 mac_h1 ETH_TYPE_IP)) /\
  @Teste4_5._packet_in_handler (decode_as frame_ip_headerless) msg_s1_p1 app_knows_h4
  = (Returned tt,
     emit (learned app_knows_h4 msg_s1_p1 (Ethernet mac_h4 mac_h1 ETH_TYPE_IP))
       [flow_mod_of msg_s1_p1 (OFPMatch_l2 1 mac_h4) [OFPActionOutput1 4];
        packet_out_of msg_s1_p1 [OFPActionOutput1 4]]).
Proof.
  assert (Hw := @missing_ipv4_header (decode_as frame_ip_headerless)
                  msg_s1_p1 app_knows_h4 (Ethernet mac_h4 mac_h1 ETH_TYPE_IP)).
  split.
  - refine (proj1 (proj1 (Hw _ _ _ _)) _).
    + reflexivity.
    + reflexivity.
    + reflexivity.
    + vm_compute. discriminate.
    + vm_compute. auto.
  - refine (proj2 (proj2 (Hw _ _ _ _))).
    + reflexivity.
    + reflexivity.
    + reflexivity.
    + vm_compute. discriminate.
Defined.

(** X13.  Away from the classified path the three controllers cannot be
    told apart: unless the frame has the IPv4 ether-type, comes from
    switch 1 and resolves to port 4, the three packet-in handlers end the
    same way, leave the same table and send the same messages. *)
Theorem controllers_agree_off_the_classified_path `{PacketLib} msg st :
  (forall e,
     get_protocol_ethernet (Packet (msg_data msg)) = Some e ->
     ~ (ethertype e = ETH_TYPE_IP /\ msg_datapath msg = 1 /\
        out_port_of st msg e = 4)) ->
  Teste2._packet_in_handler msg st = Teste4_5._packet_in_handler msg st /\
  Teste3._packet_in_handler msg st = Teste4_5._packet_in_handler msg st.
Proof.
  intros Hoff.
  destruct (get_protocol_ethernet (Packet (msg_data msg))) as [e|] eqn:He.
  2: { rewrite Teste2_facts.t2_handler_malformed, Teste3_facts.t3_handler_malformed,
         Teste4_5_facts.t45_handler_malformed by done. done. }
  destruct (decide (ethertype e = ETH_TYPE_LLDP)) as [Hl|Hl].
  { rewrite (Teste2_facts.t2_handler_lldp msg st e),
      (Teste3_facts.t3_handler_lldp msg st e),
      (Teste4_5_facts.t45_handler_lldp msg st e) by done. done. }
  destruct (decide (out_port_of st msg e = OFPP_FLOOD)) as [Hout|Hout].
  { rewrite (Teste2_facts.t2_handler_flood msg st e),
      (Teste3_facts.t3_handler_flood msg st e),
      (Teste4_5_facts.t45_handler_flood msg st e) by done. done. }
  rewrite (Teste2_facts.t2_handler_plain msg st e),
    (Teste3_facts.t3_handler_plain msg st e),
    (Teste4_5_facts.t45_handler_plain msg st e) by auto. done.
Qed.

Lemma controllers_agree_off_the_classified_path_witness :
  @Teste2._packet_in_handler (decode_as frame_h1_h4) msg_s2_p1 init
  = @Teste4_5._packet_in_handler (decode_as frame_h1_h4) msg_s2_p1 init.
Proof.
  refine (proj1 (@controllers_agree_off_the_classified_path
                   (decode_as frame_h1_h4) msg_s2_p1 init _)).
  intros e He [_ [Hd _]]. vm_compute in Hd. discriminate Hd.
Defined.

(** X14.  Queues.  The controller without classification never sends a
    queue-setting action.  In a message sent by one of the two classifying
    controllers, a queue-setting action names queue 1 or queue 2, occurs
    only for a packet-in from switch 1, and is the first of exactly two
    actions, the second being the output to port 4. *)
Theorem queues_only_on_the_classified_path `{PacketLib} msg st :
  let classifying (h : OFPPacketIn -> M unit) :=
    exists ms,
      sent (h msg st).2 = sent st ++ ms /\
      forall m q, In m ms -> In (OFPActionSetQueue q) (actions_of m) ->
        (q = 1 \/ q = 2) /\
        msg_datapath msg = 1 /\
        actions_of m = [OFPActionSetQueue q; OFPActionOutput 4 OFPCML_MAX] in
  classifying Teste2._packet_in_handler /\
  classifying Teste3._packet_in_handler /\
  exists ms,
    sent (Teste4_5._packet_in_handler msg st).2 = sent st ++ ms /\
    forall m q, In m ms -> ~ In (OFPActionSetQueue q) (actions_of m).
Proof.
  intros classifying. subst classifying. cbv beta.
  assert (Hgen : forall h, regular h ->
             exists ms,
               sent (h msg st).2 = sent st ++ ms /\
               forall m q, In m ms -> In (OFPActionSetQueue q) (actions_of m) ->
                 (q = 1 \/ q = 2) /\
                 msg_datapath msg = 1 /\
                 actions_of m = [OFPActionSetQueue q; OFPActionOutput 4 OFPCML_MAX]).
  { intros h Hh. destruct (regular_messages h Hh msg st) as (ms & Hs & Hms).
    exists ms. split; [done|]. intros m q Hm Hq.
    destruct Hms as [->|[->|(mt & a & -> & _ & Ha)]].
    - destruct Hm.
    - destruct Hm as [<-|[]]. simpl in Hq. destruct Hq as [Hq|[]]. discriminate Hq.
    - assert (Hact : actions_of m = a).
      { destruct Hm as [<-|[<-|[]]]; simpl; [apply app_nil_r|done]. }
      rewrite Hact in Hq |- *.
      destruct Ha as [(p & ->)|(q' & Hq' & Hd & ->)].
      + destruct Hq as [Hq|[]]. discriminate Hq.
      + destruct Hq as [Hq|[Hq|[]]]; [|discriminate Hq].
        injection Hq as ->. done. }
  split; [|split].
  - apply Hgen, t2_regular.
  - apply Hgen, t3_regular.
  - destruct (get_protocol_ethernet (Packet (msg_data msg))) as [e|] eqn:He.
    2: { rewrite Teste4_5_facts.t45_handler_malformed by done.
         exists []. simpl. rewrite app_nil_r. split; [done|]. by intros m q []. }
    destruct (t45_returns msg st e He) as (p & [[Hr _]|[Hr|Hr]]); rewrite Hr; simpl.
    + exists []. rewrite app_nil_r. split; [done|]. by intros m q [].
    + eexists. split; [done|]. intros m q [<-|[]] [Hq|[]]. discriminate Hq.
    + eexists. split; [done|].
      intros m q [<-|[<-|[]]] [Hq|[]]; discriminate Hq.
Qed.

Lemma queues_only_on_the_classified_path_witness :
  exists ms,
    sent (@Teste2._packet_in_handler (decode_as frame_h1_h4) msg_s1_p1 app_knows_h4).2
    = sent app_knows_h4 ++ ms /\
    forall m q, In m ms -> In (OFPActionSetQueue q) (actions_of m) ->
      (q = 1 \/ q = 2) /\
      msg_datapath msg_s1_p1 = 1 /\
      actions_of m = [OFPActionSetQueue q; OFPActionOutput 4 OFPCML_MAX].
Proof.
  exact (proj1 (@queues_only_on_the_classified_path (decode_as frame_h1_h4)
                  msg_s1_p1 app_knows_h4)).
Defined.

(** ** Table-miss rules along a run *)

Section TableMiss.
Context `{PacketLib}.
Variable sf : Z -> M unit.
Variable h : OFPPacketIn -> M unit.
Hypothesis sf_sent :
  forall datapath st, exists m,
    is_table_miss m = true /\ sent (sf datapath st).2 = sent st ++ [m].
Hypothesis h_handled : forall msg st, handled msg st (h msg st).

Lemma step_table_miss st ev :
  length (List.filter is_table_miss (sent (step sf h st ev))) =
  (length (List.filter is_table_miss (sent st))
   + (if is_features ev then 1 else 0))%nat.
Proof.
  destruct ev as [dp|msg]; unfold step, dispatch; simpl.
  - destruct (sf_sent dp st) as (m & Hm & ->).
    rewrite List.filter_app, length_app. simpl. by rewrite Hm.
  - destruct (handled_sent msg st _ (h_handled msg st)) as (ms & -> & _ & Hp).
    rewrite List.filter_app, length_app.
    assert (Hnone : List.filter is_table_miss ms = []).
    { clear -Hp. induction ms as [|m ms IH]; [done|]. simpl.
      assert (Hm : is_table_miss m = false).
      { destruct m as [fm|po]; [|done]. simpl.
        rewrite (Hp fm) by (by left). done. }
      rewrite Hm. apply IH. intros fm Hin. apply Hp. by right. }
    rewrite Hnone. simpl. lia.
Qed.

Lemma run_table_miss evs st :
  length (List.filter is_table_miss (sent (run sf h evs st))) =
  (length (List.filter is_table_miss (sent st))
   + length (List.filter is_features evs))%nat.
Proof.
  revert st. induction evs as [|ev evs IH]; intros st; simpl; [lia|].
  rewrite IH, step_table_miss. destruct (is_features ev); simpl; lia.
Qed.

End TableMiss.

(** X15.  Along any run from a new application, the number of flow-mods of
    priority 0 that have been sent is the number of switch-features events
    handled: a table-miss rule is sent once for every such event, again
    when a switch reconnects, and never by a packet-in.  This holds for
    the three controllers. *)
Theorem one_table_miss_rule_per_features_event `{PacketLib} evs :
  let counted (sf : Z -> M unit) (h : OFPPacketIn -> M unit) :=
    length (List.filter is_table_miss (sent (run sf h evs init)))
    = length (List.filter is_features evs) in
  counted Teste2.switch_features_handler Teste2._packet_in_handler /\
  counted Teste3.switch_features_handler Teste3._packet_in_handler /\
  counted Teste4_5.switch_features_handler Teste4_5._packet_in_handler.
Proof.
  intros counted. subst counted. cbv beta. split; [|split].
  - apply (run_table_miss Teste2.switch_features_handler Teste2._packet_in_handler).
    + intros dp st. eexists. split; last (rewrite Teste2_facts.t2_features_sent; reflexivity). reflexivity.
    + apply Teste2_facts.t2_handler_handled.
  - apply (run_table_miss Teste3.switch_features_handler Teste3._packet_in_handler).
    + intros dp st. eexists. split; last (rewrite Teste3_facts.t3_features_sent; reflexivity). reflexivity.
    + apply Teste3_facts.t3_handler_handled.
  - apply (run_table_miss Teste4_5.switch_features_handler Teste4_5._packet_in_handler).
    + intros dp st. eexists. split; last (rewrite Teste4_5_facts.t45_features_sent; reflexivity). reflexivity.
    + apply Teste4_5_facts.t45_handler_handled.
Qed.
